(** * pulse-throw: workload metrics over daily snapshots

    A shallow embedding of the pure part of [pulse.py]: the tag filter,
    the date-indexed workload map, the divisor policy and the acute,
    chronic and ratio computations, followed by the properties proved
    about them.

    Conventions.
    - A Python [float] is an IEEE-754 binary64 number: Rocq's primitive
      [float], with its arithmetic and its comparison.
    - A Python [int] is a [Z].
    - A [datetime.date] is represented by its proleptic Gregorian ordinal
      ([date.toordinal()]), a [Z] between 1 (0001-01-01) and 3652059
      (9999-12-31); order, equality and day differences of dates are those
      of their ordinals.
    - A raised exception is the [Raise] case of [result]. *)

From stdpp Require Import gmap strings list fin_maps.
From Stdlib Require Import ZArith Lia Ascii Uint63 PrimFloat.

Local Open Scope Z_scope.
#[local] Set Warnings "-inexact-float".

(** ** Exceptions and the result of a call *)

Inductive exn_class : Type :=
| ValueError
| OverflowError
| ZeroDivisionError
| IndexError.

Inductive exception : Type :=
| StartAfterEnd (start end_ : Z)
    (* ValueError("Start date greater than end date: {start} > {end}") *)
| EmptySequence
    (* ValueError: min() / max() arg is an empty sequence *)
| InvalidIsoformat (s : string)
    (* ValueError: Invalid isoformat string, or a field out of range *)
| DateOutOfRange
    (* OverflowError: date value out of range *)
| DivisionByZero
    (* ZeroDivisionError: float division by zero *)
| ListIndexOutOfRange.
    (* IndexError: list index out of range *)

Definition class_of (e : exception) : exn_class :=
  match e with
  | StartAfterEnd _ _ => ValueError
  | EmptySequence => ValueError
  | InvalidIsoformat _ => ValueError
  | DateOutOfRange => OverflowError
  | DivisionByZero => ZeroDivisionError
  | ListIndexOutOfRange => IndexError
  end.

Inductive result (A : Type) : Type :=
| Ok (a : A)
| Raise (e : exception).

Arguments Ok {A} a.
Arguments Raise {A} e.

#[global] Instance result_ret : MRet result := fun _ a => Ok a.
#[global] Instance result_bind : MBind result := fun _ _ k r =>
  match r with
  | Ok a => k a
  | Raise e => Raise e
  end.

Definition returns {A} (r : result A) : Prop := ∃ a, r = Ok a.

(** ** The standard library's [datetime.date], by ordinal

    [fromisoformat] reads the format the docstrings of [pulse.py] ask for,
    [YYYY-MM-DD]. The proofs below use of it only that a parsed date lies
    between [date.min] and [date.max], that the empty string is rejected,
    and that a rejected string raises a [ValueError]. *)

Module Datetime.

Abbreviation date := Z.

Definition MINYEAR : Z := 1.
Definition MAXYEAR : Z := 9999.
Definition MAXORDINAL : Z := 3652059.

Definition is_leap (year : Z) : bool :=
  (year mod 4 =? 0) && (negb (year mod 100 =? 0) || (year mod 400 =? 0)).

Definition days_before_year (year : Z) : Z :=
  let y := year - 1 in
  y * 365 + y / 4 - y / 100 + y / 400.

Definition days_in_month (year month : Z) : Z :=
  if (month =? 2) && is_leap year then 29
  else nth (Z.to_nat month) [-1; 31; 28; 31; 30; 31; 30; 31; 31; 30; 31; 30; 31] 0.

Definition days_before_month (year month : Z) : Z :=
  nth (Z.to_nat month) [-1; 0; 31; 59; 90; 120; 151; 181; 212; 243; 273; 304; 334] 0
  + (if (2 <? month) && is_leap year then 1 else 0).

Definition ymd2ord (year month day : Z) : Z :=
  days_before_year year + days_before_month year month + day.

(** [date(year, month, day)]: the constructor checks the three fields. *)
Definition valid_ymd (year month day : Z) : bool :=
  (MINYEAR <=? year) && (year <=? MAXYEAR)
  && (1 <=? month) && (month <=? 12)
  && (1 <=? day) && (day <=? days_in_month year month).

Definition digit (c : Ascii.ascii) : option Z :=
  let n := Z.of_N (Ascii.N_of_ascii c) in
  if (48 <=? n) && (n <=? 57) then Some (n - 48) else None.

Fixpoint digits (cs : list Ascii.ascii) (acc : Z) : option Z :=
  match cs with
  | [] => Some acc
  | c :: cs' =>
      match digit c with
      | Some d => digits cs' (10 * acc + d)
      | None => None
      end
  end.

(** [date.fromisoformat]: the ten characters [YYYY-MM-DD]. *)
Definition fromisoformat (s : string) : result date :=
  match String.list_ascii_of_string s with
  | [y1; y2; y3; y4; sep1; m1; m2; sep2; d1; d2] =>
      match digits [y1; y2; y3; y4] 0, digits [m1; m2] 0, digits [d1; d2] 0 with
      | Some year, Some month, Some day =>
          if Ascii.eqb sep1 "-"%char && Ascii.eqb sep2 "-"%char && valid_ymd year month day
          then Ok (ymd2ord year month day)
          else Raise (InvalidIsoformat s)
      | _, _, _ => Raise (InvalidIsoformat s)
      end
  | _ => Raise (InvalidIsoformat s)
  end.

(** [d - timedelta(days=n)]: the result must be a date again. *)
Definition sub_days (d : date) (n : Z) : result date :=
  let o := d - n in
  if (0 <? o) && (o <=? MAXORDINAL) then Ok o else Raise DateOutOfRange.

(** [(d1 - d2).days] *)
Definition days_between (d1 d2 : date) : Z := d1 - d2.

(** The year, month and day of an ordinal: 146097, 36524 and 1461 are the
    days of 400, 100 and 4 years. *)
Definition ord2ymd (n : Z) : Z * Z * Z :=
  let n := n - 1 in
  let n400 := n / 146097 in
  let n := n mod 146097 in
  let year := n400 * 400 + 1 in
  let n100 := n / 36524 in
  let n := n mod 36524 in
  let n4 := n / 1461 in
  let n := n mod 1461 in
  let n1 := n / 365 in
  let n := n mod 365 in
  let year := year + n100 * 100 + n4 * 4 + n1 in
  if (n1 =? 4) || (n100 =? 4) then (year - 1, 12, 31) else
  let leapyear := (n1 =? 3) && (negb (n4 =? 24) || (n100 =? 3)) in
  let month := Z.shiftr (n + 50) 5 in
  let preceding :=
    nth (Z.to_nat month) [-1; 0; 31; 59; 90; 120; 151; 181; 212; 243; 273; 304; 334] 0
    + (if (2 <? month) && leapyear then 1 else 0) in
  if n <? preceding then
    let month := month - 1 in
    let preceding :=
      preceding
      - (nth (Z.to_nat month) [-1; 31; 28; 31; 30; 31; 30; 31; 31; 30; 31; 30; 31] 0
         + (if (month =? 2) && leapyear then 1 else 0)) in
    (year, month, n - preceding + 1)
  else (year, month, n - preceding + 1).

Definition digit_char (k : Z) : Ascii.ascii := Ascii.ascii_of_N (Z.to_N (48 + k)).

(** The last [width] decimal digits of [n], as for ["%04d"] and ["%02d"] on
    the fields of a date. *)
Fixpoint zero_padded (width : nat) (n : Z) (acc : list Ascii.ascii) : list Ascii.ascii :=
  match width with
  | O => acc
  | S width' => zero_padded width' (n / 10) (digit_char (n mod 10) :: acc)
  end.

(** [str(d)], that is [d.isoformat()] *)
Definition isoformat (d : date) : string :=
  let '(year, month, day) := ord2ymd d in
  String.string_of_list_ascii
    (zero_padded 4 year [] ++ "-"%char :: zero_padded 2 month []
     ++ "-"%char :: zero_padded 2 day []).

End Datetime.

(** ** Floats and built-ins *)

(** The float of an int, as in [x / k]; exact below 2^53, and the divisors
    here are at most 28. *)
Definition float_of_int (z : Z) : float :=
  if z <? 0 then PrimFloat.opp (PrimFloat.of_uint63 (Uint63.of_Z (- z)))
  else PrimFloat.of_uint63 (Uint63.of_Z z).

(** [x / k] for a float [x] and an int [k]. *)
Definition truediv_int (x : float) (k : Z) : result float :=
  if k =? 0 then Raise DivisionByZero else Ok (PrimFloat.div x (float_of_int k)).

(** [x / y] for two floats. *)
Definition truediv (x y : float) : result float :=
  if PrimFloat.eqb y 0%float then Raise DivisionByZero else Ok (PrimFloat.div x y).

(** [sum(term(x) for x in items)]: the generator is consumed from left to
    right, each term added to the running total, which starts at 0. *)
Fixpoint sum_from {A} (term : A → result float) (items : list A) (acc : float)
  : result float :=
  match items with
  | [] => Ok acc
  | x :: items' => t ← term x; sum_from term items' (PrimFloat.add acc t)
  end.

Definition py_sum {A} (term : A → result float) (items : list A) : result float :=
  sum_from term items 0%float.

(** [min(keys)] and [max(keys)] *)
Definition py_min (keys : list Z) : result Z :=
  match keys with
  | [] => Raise EmptySequence
  | k :: keys' => Ok (foldl Z.min k keys')
  end.

Definition py_max (keys : list Z) : result Z :=
  match keys with
  | [] => Raise EmptySequence
  | k :: keys' => Ok (foldl Z.max k keys')
  end.

(** [range(n)] *)
Definition range (n : Z) : list Z := seqZ 0 n.

(** [xs[i]] for [0 <= i] *)
Definition index {A} (xs : list A) (i : Z) : result A :=
  match xs !! Z.to_nat i with
  | Some x => Ok x
  | None => Raise ListIndexOutOfRange
  end.

(** ** Records fetched from the API *)

(** A daily snapshot: the fields the workload functions read. *)
Record snapshot : Type := {
  date : string;
  dailyWorkload : float;
  normDailyWorkload : float
}.

(** A throw event; [tag] is [event.get("tag")], [None] when the key is absent
    or null. *)
Record event : Type := {
  tag : option string;
  workload : float;
  normalizedWorkload : float
}.

(** The [tags] argument: [str | list[str]]; a list may hold [None]. *)
Inductive tags_arg : Type :=
| TagStr (t : string)
| TagList (ts : list (option string)).

(** ** Constants *)

Definition ACUTE_LENGTH : Z := 9.
Definition ACUTE_WEIGHTS : list float :=
  [1.3; 1.225; 1.15; 1.075; 1.0; 0.925; 0.85; 0.775; 0.7]%float.
Definition CHRONIC_LENGTH : Z := 28.

(** ** Filter functions *)

Definition filter_by_tag (events : list event) (tags : tags_arg) (blacklist : bool)
  : list event :=
  let tags := match tags with TagStr t => [Some t] | TagList ts => ts end in
  if negb blacklist
  then filter (λ event, tag event ∈ tags) events
  else filter (λ event, tag event ∉ tags) events.

(** A throw event with its two flags: [simulated] is [event.get("simulated")]
    and [highEffort] is [event.get("highEffort")], [None] when the key is
    absent or its value is null, which is neither [True] nor [False];
    [throw_event] holds the other fields read here. *)
Record throw : Type := {
  throw_event : event;
  simulated : option bool;
  highEffort : option bool
}.

(** [event.get("simulated") is get_simulated]: the flag is that boolean. *)
Definition filter_simulated (events : list throw) (get_simulated : bool) : list throw :=
  filter (λ event, simulated event = Some get_simulated) events.

Definition filter_high_effort (events : list throw) (get_high_effort : bool) : list throw :=
  filter (λ event, highEffort event = Some get_high_effort) events.

(** ** Workload sum *)

Definition sum_workload (events : list event) (normalized : bool) : result float :=
  py_sum (λ event, Ok (if normalized then normalizedWorkload event else workload event))
         events.

(** ** Workload helper functions *)

Definition daily (normalized : bool) (s : snapshot) : float :=
  if normalized then normDailyWorkload s else dailyWorkload s.

(** The dict comprehension: records are entered in input order, a later
    record replacing an earlier one with the same date. *)
Fixpoint workloads_from (snapshots : list snapshot) (normalized : bool)
    (acc : gmap Z float) : result (gmap Z float) :=
  match snapshots with
  | [] => Ok acc
  | s :: rest =>
      d ← Datetime.fromisoformat (date s);
      workloads_from rest normalized (<[d := daily normalized s]> acc)
  end.

Definition _get_workloads_by_date (snapshots : list snapshot) (normalized : bool)
  : result (gmap Z float) :=
  workloads_from snapshots normalized ∅.

Definition _get_acute_divisor (timespan : Z) : Z :=
  if 6 <=? timespan then ACUTE_LENGTH else timespan + 3.

Definition _get_chronic_divisor (timespan : Z) : Z :=
  if 23 <=? timespan then CHRONIC_LENGTH else timespan + 5.

(** ** Workload functions *)

(** [workloads.keys()] *)
Definition keys (workloads : gmap Z float) : list Z := (map_to_list workloads).*1.

(** [workloads.get(d, 0.0)] *)
Definition get (workloads : gmap Z float) (d : Z) : float :=
  default 0%float (workloads !! d).

(** [date.fromisoformat(end_date) if end_date else max(workloads.keys())];
    [None] and the empty string are the falsy values of [end_date]. *)
Definition end_of (end_date : option string) (workloads : gmap Z float) : result Z :=
  match end_date with
  | Some s => if String.eqb s "" then py_max (keys workloads)
              else Datetime.fromisoformat s
  | None => py_max (keys workloads)
  end.

Definition compute_acute_workload (snapshots : list snapshot)
    (end_date : option string) (normalized : bool) : result float :=
  workloads ← _get_workloads_by_date snapshots normalized;
  start ← py_min (keys workloads);
  end_ ← end_of end_date workloads;
  if end_ <? start then Raise (StartAfterEnd start end_) else
  total ← py_sum (λ offset,
                    d ← Datetime.sub_days end_ offset;
                    w ← index ACUTE_WEIGHTS offset;
                    mret (PrimFloat.mul (get workloads d) w))
                 (range ACUTE_LENGTH);
  truediv_int total (_get_acute_divisor (Datetime.days_between end_ start)).

Definition compute_chronic_workload (snapshots : list snapshot)
    (end_date : option string) (normalized : bool) : result float :=
  workloads ← _get_workloads_by_date snapshots normalized;
  start ← py_min (keys workloads);
  end_ ← end_of end_date workloads;
  if end_ <? start then Raise (StartAfterEnd start end_) else
  total ← py_sum (λ offset,
                    d ← Datetime.sub_days end_ offset;
                    mret (get workloads d))
                 (range CHRONIC_LENGTH);
  truediv_int total (_get_chronic_divisor (Datetime.days_between end_ start)).

Definition compute_acr (snapshots : list snapshot)
    (end_date : option string) (normalized : bool) : result float :=
  chronic_workload ← compute_chronic_workload snapshots end_date normalized;
  if PrimFloat.eqb chronic_workload 0%float then Ok 0%float else
  acute_workload ← compute_acute_workload snapshots end_date normalized;
  truediv acute_workload chronic_workload.

(** ** Client helpers

    The three methods read [self.user_id] and today's date; both are
    arguments here. *)

(** The [user_ids] argument: [str | list[str] | None]. *)
Inductive ids_arg : Type :=
| IdStr (s : string)
| IdList (l : list string).

Record payload : Type := {
  pulseUserIds : list string;
  startDate : string;
  endDate : string
}.

(** [not user_ids]: [None], the empty string and the empty list. *)
Definition falsy_ids (user_ids : option ids_arg) : bool :=
  match user_ids with
  | None => true
  | Some (IdStr s) => String.eqb s ""
  | Some (IdList l) => match l with [] => true | _ => false end
  end.

Definition _format_user_ids (user_id : string) (user_ids : option ids_arg) : list string :=
  if falsy_ids user_ids then [user_id] else
  match user_ids with
  | Some (IdStr s) => [s]
  | Some (IdList l) => l
  | None => [user_id]
  end.

(** [date.fromisoformat(s) if s else otherwise] *)
Definition date_or (s : option string) (otherwise : result Z) : result Z :=
  match s with
  | Some s => if String.eqb s "" then otherwise else Datetime.fromisoformat s
  | None => otherwise
  end.

Definition _format_dates (today : Z) (start_date end_date : option string)
  : result (string * string) :=
  end_ ← date_or end_date (Ok today);
  start ← date_or start_date (Datetime.sub_days end_ 8);
  if end_ <? start then Raise (StartAfterEnd start end_) else
  Ok (Datetime.isoformat start, Datetime.isoformat end_).

Definition _format_payload (user_id : string) (today : Z)
    (start_date end_date : option string) (user_ids : option ids_arg) : result payload :=
  '(start, end_) ← _format_dates today start_date end_date;
  let users := _format_user_ids user_id user_ids in
  Ok {| pulseUserIds := users; startDate := start; endDate := end_ |}.

(** ** The formulas of the specification *)

Definition weight : list float :=
  [1.3; 1.225; 1.15; 1.075; 1.0; 0.925; 0.85; 0.775; 0.7]%float.

(** [Σ_{offset=0}^{8} W.get(end − offset, 0.0) × weight[offset] / D_a(end − start)],
    the terms added in the order of the offsets. *)
Definition acute_formula (W : gmap Z float) (start end_ : Z) : float :=
  PrimFloat.div
    (foldl (λ acc offset,
              PrimFloat.add acc
                (PrimFloat.mul (default 0%float (W !! (end_ - offset)))
                               (nth (Z.to_nat offset) weight 0%float)))
           0%float (seqZ 0 9))
    (float_of_int (_get_acute_divisor (end_ - start))).

(** [Σ_{offset=0}^{27} W.get(end − offset, 0.0) / D_c(end − start)] *)
Definition chronic_formula (W : gmap Z float) (start end_ : Z) : float :=
  PrimFloat.div
    (foldl (λ acc offset, PrimFloat.add acc (default 0%float (W !! (end_ - offset))))
           0%float (seqZ 0 28))
    (float_of_int (_get_chronic_divisor (end_ - start))).

(** ** The inputs of a window computation *)

(** [m] is the least (greatest) element of [l]. *)
Definition earliest (l : list Z) (m : Z) : Prop := m ∈ l ∧ ∀ x, x ∈ l → m ≤ x.
Definition latest (l : list Z) (m : Z) : Prop := m ∈ l ∧ ∀ x, x ∈ l → x ≤ m.

(** [end = parsed end_date], defaulting to the latest key when [end_date] is
    not given ([None], or the empty string, which Python takes as false). *)
Definition reference_date (end_date : option string) (W : gmap Z float) (end_ : Z) : Prop :=
  match end_date with
  | Some s => if String.eqb s "" then latest (keys W) end_
              else Datetime.fromisoformat s = Ok end_
  | None => latest (keys W) end_
  end.

(** [W] is the workload map of the snapshots, [start] its earliest key and
    [end_] the reference date. *)
Definition window_inputs (snapshots : list snapshot) (end_date : option string)
    (normalized : bool) (W : gmap Z float) (start end_ : Z) : Prop :=
  _get_workloads_by_date snapshots normalized = Ok W
  ∧ earliest (keys W) start
  ∧ reference_date end_date W end_.

Definition raises {A} (r : result A) (c : exn_class) : Prop :=
  ∃ e, r = Raise e ∧ class_of e = c.

(** ** Notions used in the statements *)

(** The tags a call filters by: a single string stands for the list of it. *)
Definition tag_list (tags : tags_arg) : list (option string) :=
  match tags with TagStr t => [Some t] | TagList ts => ts end.

(** The field [sum_workload] adds up. *)
Definition workload_of (normalized : bool) (e : event) : float :=
  if normalized then normalizedWorkload e else workload e.

(** Records with the same date carry the same daily workload. *)
Definition consistent (normalized : bool) (snapshots : list snapshot) : Prop :=
  ∀ s1 s2 d, s1 ∈ snapshots → s2 ∈ snapshots →
    Datetime.fromisoformat (date s1) = Ok d →
    Datetime.fromisoformat (date s2) = Ok d →
    daily normalized s1 = daily normalized s2.

(** ** Sample data *)

Definition snap (d : string) (w nw : float) : snapshot :=
  {| date := d; dailyWorkload := w; normDailyWorkload := nw |}.

Definition april : list snapshot :=
  [ snap "2022-04-28" 10.5 12.25; snap "2022-04-29" 0 0; snap "2022-04-30" 20 21.5 ].

Definition rest_day : list snapshot := [snap "2022-04-30" 0 0].

Definition april_map : gmap Z float :=
  <[738275 := 21.5%float]> (<[738274 := 0%float]> (<[738273 := 12.25%float]> ∅)).

Definition spring : list snapshot :=
  [snap "2022-04-01" 5 5; snap "2022-04-30" 20 21.5].
Definition spring' : list snapshot :=
  [snap "2022-04-01" 7 7; snap "2022-04-15" 3 3; snap "2022-04-30" 20 21.5].

(** * Properties *)

(** ** Sample runs *)

Example fromisoformat_2022_04_30 : Datetime.fromisoformat "2022-04-30" = Ok 738275.
Proof. reflexivity. Qed.
Example fromisoformat_min : Datetime.fromisoformat "0001-01-01" = Ok 1.
Proof. reflexivity. Qed.
Example fromisoformat_max : Datetime.fromisoformat "9999-12-31" = Ok Datetime.MAXORDINAL.
Proof. reflexivity. Qed.
Example fromisoformat_bad : Datetime.fromisoformat "2022-02-30" = Raise (InvalidIsoformat "2022-02-30").
Proof. reflexivity. Qed.
Example float_div_9 : truediv_int 0%float 9 = Ok 0%float.
Proof. reflexivity. Qed.
Example isoformat_2022_04_30 : Datetime.isoformat 738275 = "2022-04-30".
Proof. reflexivity. Qed.
Example isoformat_min : Datetime.isoformat 1 = "0001-01-01".
Proof. reflexivity. Qed.
Example isoformat_max : Datetime.isoformat Datetime.MAXORDINAL = "9999-12-31".
Proof. reflexivity. Qed.
Example isoformat_leap_day : Datetime.isoformat 730179 = "2000-02-29".
Proof. reflexivity. Qed.
Example isoformat_year_end : Datetime.isoformat 730485 = "2000-12-31".
Proof. reflexivity. Qed.
Example format_dates_eight_days_back :
  _format_dates 738275 None (Some "2022-05-10") = Ok ("2022-05-02", "2022-05-10").
Proof. reflexivity. Qed.
Example format_dates_bad_dates :
  _format_dates 738275 (Some "2022-05-10") (Some "2022-05-02")
  = Raise (StartAfterEnd 738285 738277).
Proof. reflexivity. Qed.
Example acute_april : compute_acute_workload april None true = Ok 8.4074999999999989%float.
Proof. vm_compute. reflexivity. Qed.


(** ** Results *)

Lemma bind_Ok {A B} (r : result A) (k : A → result B) (b : B) :
  r ≫= k = Ok b ↔ ∃ a, r = Ok a ∧ k a = Ok b.
Proof.
  destruct r as [a|e]; simpl; split.
  - eauto.
  - intros (a' & [= <-] & ?). done.
  - discriminate.
  - intros (a' & ? & ?). discriminate.
Qed.

Lemma bind_Raise {A B} (r : result A) (k : A → result B) (e : exception) :
  r ≫= k = Raise e ↔ r = Raise e ∨ ∃ a, r = Ok a ∧ k a = Raise e.
Proof.
  destruct r as [a|e']; simpl; split.
  - eauto.
  - intros [?|(a' & [= <-] & ?)]; done.
  - intros [= <-]. by left.
  - intros [[= <-]|(a' & ? & ?)]; done.
Qed.

(** ** Dates *)

Lemma sub_days_Ok (d n : Z) :
  0 < d - n ≤ Datetime.MAXORDINAL → Datetime.sub_days d n = Ok (d - n).
Proof.
  intros [Hlo Hhi]. unfold Datetime.sub_days. simpl.
  destruct (Z.ltb_spec 0 (d - n)); [|lia].
  destruct (Z.leb_spec (d - n) Datetime.MAXORDINAL); [done|lia].
Qed.

Lemma sub_days_Raise (d n : Z) :
  d - n ≤ 0 → Datetime.sub_days d n = Raise DateOutOfRange.
Proof.
  intros Hlo. unfold Datetime.sub_days. simpl.
  destruct (Z.ltb_spec 0 (d - n)); [lia|done].
Qed.

Lemma sub_days_inv (d n o : Z) :
  Datetime.sub_days d n = Ok o → o = d - n ∧ 0 < d - n ≤ Datetime.MAXORDINAL.
Proof.
  unfold Datetime.sub_days. simpl.
  destruct (Z.ltb_spec 0 (d - n)); [|discriminate].
  destruct (Z.leb_spec (d - n) Datetime.MAXORDINAL); [|discriminate].
  intros [= <-]. lia.
Qed.

Lemma day_of_year_range (year month day : Z) :
  1 ≤ month ≤ 12 → 1 ≤ day ≤ Datetime.days_in_month year month →
  1 ≤ Datetime.days_before_month year month + day
    ≤ 365 + (if Datetime.is_leap year then 1 else 0).
Proof.
  intros Hm. unfold Datetime.days_in_month, Datetime.days_before_month.
  assert (Hcases : month = 1 ∨ month = 2 ∨ month = 3 ∨ month = 4 ∨ month = 5
                   ∨ month = 6 ∨ month = 7 ∨ month = 8 ∨ month = 9
                   ∨ month = 10 ∨ month = 11 ∨ month = 12) by lia.
  destruct (Datetime.is_leap year);
    repeat (destruct Hcases as [->|Hcases]); try subst month;
    repeat match goal with
    | |- context [Z.to_nat ?k] =>
        let v := eval vm_compute in (Z.to_nat k) in change (Z.to_nat k) with v
    end; cbn; lia.
Qed.

Lemma ymd2ord_range (year month day : Z) :
  Datetime.valid_ymd year month day = true →
  1 ≤ Datetime.ymd2ord year month day ≤ Datetime.MAXORDINAL.
Proof.
  unfold Datetime.valid_ymd, Datetime.MINYEAR, Datetime.MAXYEAR.
  rewrite !andb_true_iff, !Z.leb_le. intros [[[[[Hy1 Hy2] Hm1] Hm2] Hd1] Hd2].
  pose proof (day_of_year_range year month day (conj Hm1 Hm2) (conj Hd1 Hd2)) as Hdoy.
  unfold Datetime.ymd2ord, Datetime.days_before_year, Datetime.MAXORDINAL.
  destruct (Z.eq_dec year 9999) as [->|Hne].
  - change (Datetime.is_leap 9999) with false in Hdoy.
    change ((9999 - 1) * 365 + (9999 - 1) / 4 - (9999 - 1) / 100 + (9999 - 1) / 400)
      with 3651694. lia.
  - assert (year ≤ 9998) by lia.
    destruct (Datetime.is_leap year); Z.div_mod_to_equations; lia.
Qed.

Lemma fromisoformat_range (s : string) (d : Z) :
  Datetime.fromisoformat s = Ok d → 1 ≤ d ≤ Datetime.MAXORDINAL.
Proof.
  unfold Datetime.fromisoformat.
  destruct (String.list_ascii_of_string s) as [|y1 l]; [discriminate|].
  do 9 (destruct l as [|? l]; [discriminate|]).
  destruct l; [|discriminate].
  repeat case_match; try discriminate.
  intros [= <-]. apply ymd2ord_range.
  match goal with H : _ && _ && _ = true |- _ => apply andb_true_iff in H as [_ H] end.
  done.
Qed.

Lemma fromisoformat_empty : Datetime.fromisoformat "" = Raise (InvalidIsoformat "").
Proof. reflexivity. Qed.

(** ** Built-ins *)

Lemma sum_from_Ok {A} (term : A → result float) (f : A → float)
    (items : list A) (acc : float) :
  (∀ x, x ∈ items → term x = Ok (f x)) →
  sum_from term items acc = Ok (foldl (λ a x, PrimFloat.add a (f x)) acc items).
Proof.
  revert acc. induction items as [|x items IH]; intros acc Hterm; simpl.
  - done.
  - rewrite (Hterm x) by left. simpl. apply IH.
    intros y Hy. apply Hterm. by right.
Qed.

Lemma sum_from_Ok_inv {A} (term : A → result float) (items : list A) (acc t : float) :
  sum_from term items acc = Ok t → ∀ x, x ∈ items → returns (term x).
Proof.
  revert acc. induction items as [|x items IH]; intros acc Hsum y Hy.
  - by apply elem_of_nil in Hy.
  - simpl in Hsum. apply bind_Ok in Hsum as (t' & Hx & Hrest).
    apply elem_of_cons in Hy as [->|Hy].
    + by exists t'.
    + by eapply IH.
Qed.

Lemma sum_from_Raise {A} (term : A → result float) (items : list A) (acc : float)
    (e : exception) :
  (∀ x, x ∈ items → returns (term x) ∨ term x = Raise e) →
  (∃ x, x ∈ items ∧ term x = Raise e) →
  sum_from term items acc = Raise e.
Proof.
  revert acc. induction items as [|x items IH]; intros acc Hall (y & Hy & Hraise).
  - by apply elem_of_nil in Hy.
  - simpl. destruct (Hall x) as [[t Hx]|Hx]; [by left| |by rewrite Hx].
    rewrite Hx. simpl. apply IH.
    + intros z Hz. apply Hall. by right.
    + apply elem_of_cons in Hy as [->|Hy]; [congruence|eauto].
Qed.

Lemma sum_from_Raise_inv {A} (term : A → result float) (items : list A) (acc : float)
    (e : exception) :
  sum_from term items acc = Raise e → ∃ x, x ∈ items ∧ term x = Raise e.
Proof.
  revert acc. induction items as [|x items IH]; intros acc Hsum; [discriminate|].
  simpl in Hsum. apply bind_Raise in Hsum as [Hx|(t & Hx & Hrest)].
  - exists x. split; [by left|done].
  - destruct (IH _ Hrest) as (y & Hy & Hraise). exists y. split; [by right|done].
Qed.

Lemma foldl_min_spec (k : Z) (l : list Z) :
  foldl Z.min k l ∈ k :: l ∧ ∀ x, x ∈ k :: l → foldl Z.min k l ≤ x.
Proof.
  revert k. induction l as [|y l IH]; intros k; simpl.
  - split; [by left|]. intros x ?%list_elem_of_singleton. lia.
  - destruct (IH (Z.min k y)) as [Hin Hle]. split.
    + apply elem_of_cons in Hin as [->|Hin]; [|by do 2 right].
      destruct (Z.min_spec k y) as [[_ ->]|[_ ->]]; [left|right; left].
    + intros x Hx. pose proof (Hle (Z.min k y) ltac:(left)) as H0.
      apply elem_of_cons in Hx as [->|Hx]; [lia|].
      apply elem_of_cons in Hx as [->|Hx]; [lia|].
      apply Hle. by right.
Qed.

Lemma foldl_max_spec (k : Z) (l : list Z) :
  foldl Z.max k l ∈ k :: l ∧ ∀ x, x ∈ k :: l → x ≤ foldl Z.max k l.
Proof.
  revert k. induction l as [|y l IH]; intros k; simpl.
  - split; [by left|]. intros x ?%list_elem_of_singleton. lia.
  - destruct (IH (Z.max k y)) as [Hin Hle]. split.
    + apply elem_of_cons in Hin as [->|Hin]; [|by do 2 right].
      destruct (Z.max_spec k y) as [[_ ->]|[_ ->]]; [right; left|left].
    + intros x Hx. pose proof (Hle (Z.max k y) ltac:(left)) as H0.
      apply elem_of_cons in Hx as [->|Hx]; [lia|].
      apply elem_of_cons in Hx as [->|Hx]; [lia|].
      apply Hle. by right.
Qed.

Lemma earliest_unique (l : list Z) (m m' : Z) : earliest l m → earliest l m' → m = m'.
Proof. intros [Hin Hle] [Hin' Hle']. apply Hle in Hin'. apply Hle' in Hin. lia. Qed.

Lemma latest_unique (l : list Z) (m m' : Z) : latest l m → latest l m' → m = m'.
Proof. intros [Hin Hle] [Hin' Hle']. apply Hle in Hin'. apply Hle' in Hin. lia. Qed.

Lemma py_min_Ok (l : list Z) (m : Z) : py_min l = Ok m ↔ earliest l m.
Proof.
  destruct l as [|k l]; simpl.
  - split; [discriminate|]. intros [Hin _]. by apply elem_of_nil in Hin.
  - split.
    + intros [= <-]. apply foldl_min_spec.
    + intros Hm. f_equal. eapply earliest_unique; [apply foldl_min_spec|done].
Qed.

Lemma py_max_Ok (l : list Z) (m : Z) : py_max l = Ok m ↔ latest l m.
Proof.
  destruct l as [|k l]; simpl.
  - split; [discriminate|]. intros [Hin _]. by apply elem_of_nil in Hin.
  - split.
    + intros [= <-]. apply foldl_max_spec.
    + intros Hm. f_equal. eapply latest_unique; [apply foldl_max_spec|done].
Qed.

Lemma py_min_Raise (l : list Z) (e : exception) :
  py_min l = Raise e ↔ l = [] ∧ e = EmptySequence.
Proof. destruct l; simpl; split; try (intros [= <-]); try (intros [[=] ->]); done. Qed.

Lemma py_max_Raise (l : list Z) (e : exception) :
  py_max l = Raise e ↔ l = [] ∧ e = EmptySequence.
Proof. destruct l; simpl; split; try (intros [= <-]); try (intros [[=] ->]); done. Qed.

Lemma earliest_le_latest (l : list Z) (m M : Z) : earliest l m → latest l M → m ≤ M.
Proof. intros [Hin _] [_ Hle]. by apply Hle. Qed.

Lemma elem_of_range (n x : Z) : x ∈ range n ↔ 0 ≤ x < n.
Proof. unfold range. rewrite elem_of_seqZ. lia. Qed.

Lemma index_ACUTE_WEIGHTS (offset : Z) :
  0 ≤ offset < ACUTE_LENGTH →
  index ACUTE_WEIGHTS offset = Ok (nth (Z.to_nat offset) weight 0%float).
Proof.
  unfold ACUTE_LENGTH. intros Hoff.
  assert (Hcases : offset = 0 ∨ offset = 1 ∨ offset = 2 ∨ offset = 3 ∨ offset = 4
                   ∨ offset = 5 ∨ offset = 6 ∨ offset = 7 ∨ offset = 8) by lia.
  repeat (destruct Hcases as [->|Hcases]); try subst offset; reflexivity.
Qed.

(** ** The date-indexed workload map *)

Lemma elem_of_keys (W : gmap Z float) (d : Z) : d ∈ keys W ↔ is_Some (W !! d).
Proof.
  unfold keys. rewrite list_elem_of_fmap. split.
  - intros ([k v] & -> & Hkv%elem_of_map_to_list). by exists v.
  - intros [v Hv]. exists (d, v). split; [done|]. by apply elem_of_map_to_list.
Qed.

Lemma keys_empty : keys ∅ = [].
Proof. unfold keys. by rewrite map_to_list_empty. Qed.

Lemma get_absent (W : gmap Z float) (d : Z) : d ∉ keys W → get W d = 0%float.
Proof.
  rewrite elem_of_keys. unfold get. destruct (W !! d); [|done].
  intros []. by eexists.
Qed.

Lemma fromisoformat_Raise (s : string) (e : exception) :
  Datetime.fromisoformat s = Raise e → e = InvalidIsoformat s.
Proof.
  unfold Datetime.fromisoformat. repeat case_match; congruence.
Qed.

Lemma workloads_from_app (l1 l2 : list snapshot) (normalized : bool) (acc : gmap Z float) :
  workloads_from (l1 ++ l2) normalized acc
  = workloads_from l1 normalized acc ≫= workloads_from l2 normalized.
Proof.
  revert acc. induction l1 as [|s l1 IH]; intros acc; simpl; [done|].
  destruct (Datetime.fromisoformat (date s)); simpl; [apply IH|done].
Qed.

Lemma workloads_from_other (l : list snapshot) (normalized : bool)
    (acc W : gmap Z float) (d : Z) :
  workloads_from l normalized acc = Ok W →
  (∀ s, s ∈ l → Datetime.fromisoformat (date s) ≠ Ok d) →
  W !! d = acc !! d.
Proof.
  revert acc. induction l as [|s l IH]; intros acc HW Hother; simpl in HW.
  - by injection HW as <-.
  - apply bind_Ok in HW as (d' & Hd' & HW).
    rewrite (IH _ HW) by (intros s' Hs'; apply Hother; by right).
    apply lookup_insert_ne. intros ->. by apply (Hother s); [left|].
Qed.

Lemma workloads_from_keys (l : list snapshot) (normalized : bool)
    (acc W : gmap Z float) (d : Z) :
  workloads_from l normalized acc = Ok W →
  is_Some (W !! d) ↔
    is_Some (acc !! d) ∨ ∃ s, s ∈ l ∧ Datetime.fromisoformat (date s) = Ok d.
Proof.
  revert acc. induction l as [|s l IH]; intros acc HW; simpl in HW.
  - injection HW as <-. split; [by left|].
    intros [?|(s & Hs & _)]; [done|]. by apply elem_of_nil in Hs.
  - apply bind_Ok in HW as (d' & Hd' & HW). rewrite (IH _ HW).
    rewrite lookup_insert_is_Some. split.
    + intros [[<-|[_ Hacc]]|(s' & Hs' & Hparse)].
      * right. exists s. split; [by left|done].
      * by left.
      * right. exists s'. split; [by right|done].
    + intros [Hacc|(s' & Hs' & Hparse)].
      * left. destruct (decide (d' = d)); [by left|by right].
      * apply elem_of_cons in Hs' as [->|Hs'].
        -- left. left. congruence.
        -- right. by exists s'.
Qed.

Lemma workloads_from_total (l : list snapshot) (normalized : bool) (acc : gmap Z float) :
  (∀ s, s ∈ l → returns (Datetime.fromisoformat (date s))) →
  returns (workloads_from l normalized acc).
Proof.
  revert acc. induction l as [|s l IH]; intros acc Hvalid; simpl.
  - by exists acc.
  - destruct (Hvalid s) as [d Hd]; [by left|]. rewrite Hd. simpl.
    apply IH. intros s' Hs'. apply Hvalid. by right.
Qed.

Lemma workloads_from_valid (l : list snapshot) (normalized : bool) (acc W : gmap Z float) :
  workloads_from l normalized acc = Ok W →
  ∀ s, s ∈ l → returns (Datetime.fromisoformat (date s)).
Proof.
  revert acc. induction l as [|s l IH]; intros acc HW s' Hs'.
  - by apply elem_of_nil in Hs'.
  - simpl in HW. apply bind_Ok in HW as (d & Hd & HW).
    apply elem_of_cons in Hs' as [->|Hs']; [by exists d|by eapply IH].
Qed.

(** Every key of the map is a parsed date of some record, hence a date. *)
Lemma workloads_keys (snapshots : list snapshot) (normalized : bool)
    (W : gmap Z float) (d : Z) :
  _get_workloads_by_date snapshots normalized = Ok W →
  d ∈ keys W ↔ ∃ s, s ∈ snapshots ∧ Datetime.fromisoformat (date s) = Ok d.
Proof.
  intros HW. rewrite elem_of_keys, (workloads_from_keys _ _ _ _ _ HW).
  rewrite lookup_empty. split; [|by right].
  intros [[? [=]]|?]; done.
Qed.

Lemma workloads_keys_range (snapshots : list snapshot) (normalized : bool)
    (W : gmap Z float) (d : Z) :
  _get_workloads_by_date snapshots normalized = Ok W →
  d ∈ keys W → 1 ≤ d ≤ Datetime.MAXORDINAL.
Proof.
  intros HW Hd. apply (workloads_keys _ _ _ _ HW) in Hd as (s & _ & Hparse).
  by eapply fromisoformat_range.
Qed.

Lemma workloads_nonempty (snapshots : list snapshot) (normalized : bool)
    (W : gmap Z float) :
  _get_workloads_by_date snapshots normalized = Ok W →
  snapshots ≠ [] → keys W ≠ [].
Proof.
  intros HW Hne Hkeys. destruct snapshots as [|s rest]; [done|].
  destruct (workloads_from_valid (s :: rest) normalized ∅ W HW s) as [d Hd]; [by left|].
  assert (d ∈ keys W) as Hin.
  { apply (workloads_keys _ _ _ _ HW). exists s. split; [by left|done]. }
  rewrite Hkeys in Hin. by apply elem_of_nil in Hin.
Qed.

(** C10. The keys of the map built by [_get_workloads_by_date] are exactly
    the parsed dates of the input records, each once; a date carried by
    several records maps to the value of the last of them in input order. *)
Theorem workloads_keys_last_wins (snapshots : list snapshot) (normalized : bool)
    (W : gmap Z float) :
  _get_workloads_by_date snapshots normalized = Ok W →
  NoDup (keys W)
  ∧ (∀ d, d ∈ keys W ↔ ∃ s, s ∈ snapshots ∧ Datetime.fromisoformat (date s) = Ok d)
  ∧ (∀ before s after d,
       snapshots = before ++ s :: after →
       Datetime.fromisoformat (date s) = Ok d →
       (∀ s', s' ∈ after → Datetime.fromisoformat (date s') ≠ Ok d) →
       W !! d = Some (daily normalized s)).
Proof.
  intros HW. split; [apply NoDup_fst_map_to_list|]. split.
  - intros d. by apply (workloads_keys snapshots normalized).
  - intros before s after d -> Hd Hlast.
    unfold _get_workloads_by_date in HW. rewrite workloads_from_app in HW.
    apply bind_Ok in HW as (W1 & _ & HW). simpl in HW. rewrite Hd in HW. simpl in HW.
    rewrite (workloads_from_other _ _ _ _ d HW Hlast). apply lookup_insert_eq.
Qed.

Lemma workloads_keys_last_wins_witness :
  let snapshots := [snap "2022-04-02" 1 2; snap "2022-04-01" 3 4; snap "2022-04-02" 5 6] in
  let W : gmap Z float := <[738247 := 6%float]> (<[738246 := 4%float]> ∅) in
  _get_workloads_by_date snapshots true = Ok W
  ∧ NoDup (keys W)
  ∧ (∀ d, d ∈ keys W ↔ ∃ s, s ∈ snapshots ∧ Datetime.fromisoformat (date s) = Ok d)
  ∧ W !! 738247 = Some 6%float.
Proof.
  intros snapshots W.
  assert (HW : _get_workloads_by_date snapshots true = Ok W) by (vm_compute; reflexivity).
  destruct (workloads_keys_last_wins snapshots true W HW) as (Hnodup & Hkeys & Hlast).
  split; [exact HW|]. split; [exact Hnodup|]. split; [exact Hkeys|].
  apply (Hlast [snap "2022-04-02" 1 2; snap "2022-04-01" 3 4] (snap "2022-04-02" 5 6) []).
  - reflexivity.
  - reflexivity.
  - intros s' Hs'. by apply elem_of_nil in Hs'.
Defined.

(** ** The divisor policy *)

(** C3. For a span [s >= 0]: the acute divisor is [s + 3] below 6 and 9 from
    6 on; the chronic divisor is [s + 5] below 23 and 28 from 23 on. *)
Theorem divisors_by_span (s : Z) :
  0 ≤ s →
  (s < 6 → _get_acute_divisor s = s + 3)
  ∧ (6 ≤ s → _get_acute_divisor s = 9)
  ∧ (s < 23 → _get_chronic_divisor s = s + 5)
  ∧ (23 ≤ s → _get_chronic_divisor s = 28).
Proof.
  intros _. unfold _get_acute_divisor, _get_chronic_divisor, ACUTE_LENGTH, CHRONIC_LENGTH.
  destruct (Z.leb_spec 6 s), (Z.leb_spec 23 s); repeat split; intros; lia || done.
Qed.

Lemma divisors_by_span_witness :
  (0 ≤ 4 ∧ _get_acute_divisor 4 = 4 + 3 ∧ _get_chronic_divisor 4 = 4 + 5)
  ∧ (0 ≤ 30 ∧ _get_acute_divisor 30 = 9 ∧ _get_chronic_divisor 30 = 28).
Proof.
  split.
  - split; [lia|]. destruct (divisors_by_span 4 ltac:(lia)) as (Ha & _ & Hc & _).
    split; [apply Ha|apply Hc]; lia.
  - split; [lia|]. destruct (divisors_by_span 30 ltac:(lia)) as (_ & Ha & _ & Hc).
    split; [apply Ha|apply Hc]; lia.
Defined.

Lemma acute_divisor_range (s : Z) : 0 ≤ s → 3 ≤ _get_acute_divisor s ≤ 9.
Proof.
  intros Hs. unfold _get_acute_divisor, ACUTE_LENGTH. destruct (Z.leb_spec 6 s); lia.
Qed.

Lemma chronic_divisor_range (s : Z) : 0 ≤ s → 5 ≤ _get_chronic_divisor s ≤ 28.
Proof.
  intros Hs. unfold _get_chronic_divisor, CHRONIC_LENGTH. destruct (Z.leb_spec 23 s); lia.
Qed.

(** ** Filtering by tag *)

(** C7. The white-list and the black-list results of [filter_by_tag] share no
    event, every event of the input is in one of them, and together they are
    a rearrangement of the input: each event goes to exactly one result. *)
Theorem filter_by_tag_partition (events : list event) (tags : tags_arg) :
  let white := filter_by_tag events tags false in
  let black := filter_by_tag events tags true in
  (∀ e, ¬ (e ∈ white ∧ e ∈ black))
  ∧ (∀ e, e ∈ events ↔ e ∈ white ∨ e ∈ black)
  ∧ white ++ black ≡ₚ events.
Proof.
  unfold filter_by_tag. simpl.
  set (ts := match tags with TagStr t => [Some t] | TagList ts => ts end).
  split; [|split].
  - intros e [Hw Hb]. apply list_elem_of_filter in Hw as [Hin _].
    apply list_elem_of_filter in Hb as [Hout _]. done.
  - intros e. rewrite !list_elem_of_filter.
    destruct (decide (tag e ∈ ts)); tauto.
  - apply (filter_app_complement (λ event, tag event ∈ ts)).
Qed.

Example filter_by_tag_untagged :
  filter_by_tag [ {| tag := None; workload := 1; normalizedWorkload := 1 |};
                  {| tag := Some "Plyo"; workload := 2; normalizedWorkload := 2 |} ]
                (TagList [None]) false
  = [ {| tag := None; workload := 1; normalizedWorkload := 1 |} ].
Proof. reflexivity. Qed.

(** ** The cases of a window computation *)

Lemma end_of_Ok (end_date : option string) (W : gmap Z float) (end_ : Z) :
  end_of end_date W = Ok end_ ↔ reference_date end_date W end_.
Proof.
  unfold end_of, reference_date.
  destruct end_date as [s|]; [destruct (String.eqb s "")|]; try apply py_max_Ok; done.
Qed.

Lemma reference_date_supplied (s : string) (W : gmap Z float) (end_ : Z) :
  Datetime.fromisoformat s = Ok end_ → reference_date (Some s) W end_.
Proof.
  intros Hs. unfold reference_date. destruct (String.eqb_spec s ""); [|done].
  subst s. discriminate.
Qed.

Lemma window_inputs_range snapshots end_date normalized W start end_ :
  window_inputs snapshots end_date normalized W start end_ →
  1 ≤ start ≤ Datetime.MAXORDINAL ∧ 1 ≤ end_ ≤ Datetime.MAXORDINAL.
Proof.
  intros (HW & [Hstart _] & Hend). split.
  - by eapply workloads_keys_range.
  - unfold reference_date in Hend.
    destruct end_date as [s|]; [destruct (String.eqb s "")|].
    + destruct Hend as [Hend _]. by eapply workloads_keys_range.
    + by eapply fromisoformat_range.
    + destruct Hend as [Hend _]. by eapply workloads_keys_range.
Qed.

(** The window sums, once the dates [end_ - offset] exist. *)
Lemma acute_sum_Ok (W : gmap Z float) (end_ : Z) :
  8 < end_ ≤ Datetime.MAXORDINAL →
  py_sum (λ offset,
            d ← Datetime.sub_days end_ offset;
            w ← index ACUTE_WEIGHTS offset;
            mret (PrimFloat.mul (get W d) w))
         (range ACUTE_LENGTH)
  = Ok (foldl (λ acc offset,
                 PrimFloat.add acc
                   (PrimFloat.mul (default 0%float (W !! (end_ - offset)))
                                  (nth (Z.to_nat offset) weight 0%float)))
              0%float (seqZ 0 9)).
Proof.
  intros Hend. unfold py_sum.
  apply (sum_from_Ok _ (λ offset,
           PrimFloat.mul (default 0%float (W !! (end_ - offset)))
                         (nth (Z.to_nat offset) weight 0%float))).
  intros offset Hoff%elem_of_range.
  rewrite sub_days_Ok by (unfold ACUTE_LENGTH in Hoff; lia). simpl.
  by rewrite index_ACUTE_WEIGHTS.
Qed.

Lemma chronic_sum_Ok (W : gmap Z float) (end_ : Z) :
  27 < end_ ≤ Datetime.MAXORDINAL →
  py_sum (λ offset, d ← Datetime.sub_days end_ offset; mret (get W d))
         (range CHRONIC_LENGTH)
  = Ok (foldl (λ acc offset, PrimFloat.add acc (default 0%float (W !! (end_ - offset))))
              0%float (seqZ 0 28)).
Proof.
  intros Hend. unfold py_sum.
  apply (sum_from_Ok _ (λ offset, default 0%float (W !! (end_ - offset)))).
  intros offset Hoff%elem_of_range.
  by rewrite sub_days_Ok by (unfold CHRONIC_LENGTH in Hoff; lia).
Qed.

(** The window sums, when the window reaches before 0001-01-01. *)
Lemma acute_sum_Raise (W : gmap Z float) (end_ : Z) :
  end_ ≤ 8 →
  py_sum (λ offset,
            d ← Datetime.sub_days end_ offset;
            w ← index ACUTE_WEIGHTS offset;
            mret (PrimFloat.mul (get W d) w))
         (range ACUTE_LENGTH)
  = Raise DateOutOfRange.
Proof.
  intros Hend. unfold py_sum. apply sum_from_Raise.
  - intros offset Hoff%elem_of_range.
    unfold Datetime.sub_days. simpl. case_match; simpl; [|by right].
    left. rewrite index_ACUTE_WEIGHTS by done. by eexists.
  - exists 8. split; [by apply elem_of_range|].
    by rewrite sub_days_Raise by lia.
Qed.

Lemma chronic_sum_Raise (W : gmap Z float) (end_ : Z) :
  end_ ≤ 27 →
  py_sum (λ offset, d ← Datetime.sub_days end_ offset; mret (get W d))
         (range CHRONIC_LENGTH)
  = Raise DateOutOfRange.
Proof.
  intros Hend. unfold py_sum. apply sum_from_Raise.
  - intros offset Hoff%elem_of_range.
    unfold Datetime.sub_days. simpl. case_match; simpl; [|by right].
    left. by eexists.
  - exists 27. split; [by apply elem_of_range|].
    by rewrite sub_days_Raise by lia.
Qed.

Lemma truediv_int_Ok (x : float) (k : Z) :
  k ≠ 0 → truediv_int x k = Ok (PrimFloat.div x (float_of_int k)).
Proof. intros Hk. unfold truediv_int. by destruct (Z.eqb_spec k 0). Qed.

(** What [compute_acute_workload] does, by cases on its inputs. *)
Lemma compute_acute_workload_cases snapshots end_date normalized W start end_ :
  window_inputs snapshots end_date normalized W start end_ →
  (end_ < start
   ∧ compute_acute_workload snapshots end_date normalized
     = Raise (StartAfterEnd start end_))
  ∨ (start ≤ end_ ∧ end_ ≤ 8
     ∧ compute_acute_workload snapshots end_date normalized = Raise DateOutOfRange)
  ∨ (start ≤ end_ ∧ 8 < end_
     ∧ compute_acute_workload snapshots end_date normalized
       = Ok (acute_formula W start end_)).
Proof.
  intros Hin. pose proof (window_inputs_range _ _ _ _ _ _ Hin) as [Hs He].
  destruct Hin as (HW & Hstart%py_min_Ok & Hend%end_of_Ok).
  unfold compute_acute_workload. rewrite HW. simpl. rewrite Hstart. simpl.
  rewrite Hend. simpl.
  destruct (Z.ltb_spec end_ start) as [Hlt|Hle]; [by left|right].
  destruct (Z.le_gt_cases end_ 8) as [Hlow|Hhigh].
  - left. by rewrite acute_sum_Raise.
  - right. rewrite acute_sum_Ok by lia. simpl.
    rewrite truediv_int_Ok; [done|].
    pose proof (acute_divisor_range (Datetime.days_between end_ start)).
    unfold Datetime.days_between in *. lia.
Qed.

(** What [compute_chronic_workload] does, by cases on its inputs. *)
Lemma compute_chronic_workload_cases snapshots end_date normalized W start end_ :
  window_inputs snapshots end_date normalized W start end_ →
  (end_ < start
   ∧ compute_chronic_workload snapshots end_date normalized
     = Raise (StartAfterEnd start end_))
  ∨ (start ≤ end_ ∧ end_ ≤ 27
     ∧ compute_chronic_workload snapshots end_date normalized = Raise DateOutOfRange)
  ∨ (start ≤ end_ ∧ 27 < end_
     ∧ compute_chronic_workload snapshots end_date normalized
       = Ok (chronic_formula W start end_)).
Proof.
  intros Hin. pose proof (window_inputs_range _ _ _ _ _ _ Hin) as [Hs He].
  destruct Hin as (HW & Hstart%py_min_Ok & Hend%end_of_Ok).
  unfold compute_chronic_workload. rewrite HW. simpl. rewrite Hstart. simpl.
  rewrite Hend. simpl.
  destruct (Z.ltb_spec end_ start) as [Hlt|Hle]; [by left|right].
  destruct (Z.le_gt_cases end_ 27) as [Hlow|Hhigh].
  - left. by rewrite chronic_sum_Raise.
  - right. rewrite chronic_sum_Ok by lia. simpl.
    rewrite truediv_int_Ok; [done|].
    pose proof (chronic_divisor_range (Datetime.days_between end_ start)).
    unfold Datetime.days_between in *. lia.
Qed.

(** A returning call had inputs. *)
Lemma compute_chronic_workload_inputs snapshots end_date normalized (c : float) :
  compute_chronic_workload snapshots end_date normalized = Ok c →
  ∃ W start end_, window_inputs snapshots end_date normalized W start end_.
Proof.
  unfold compute_chronic_workload. intros Hc.
  apply bind_Ok in Hc as (W & HW & Hc).
  apply bind_Ok in Hc as (start & Hstart & Hc).
  apply bind_Ok in Hc as (end_ & Hend & _).
  exists W, start, end_. split; [done|]. split; [by apply py_min_Ok|by apply end_of_Ok].
Qed.

Lemma sub_days_returns (d n : Z) : returns (Datetime.sub_days d n) → 0 < d - n.
Proof. intros [o Ho]. by apply sub_days_inv in Ho as [_ [? _]]. Qed.

Lemma earliest_exists (l : list Z) : l ≠ [] → ∃ m, earliest l m.
Proof.
  destruct l as [|k l]; [done|]. intros _.
  exists (foldl Z.min k l). by apply py_min_Ok.
Qed.

Lemma raises_Raise {A} (e : exception) (c : exn_class) :
  raises (A := A) (Raise e) c ↔ class_of e = c.
Proof.
  split.
  - by intros (e' & [= <-] & Hc).
  - intros Hc. by exists e.
Qed.

Lemma raises_Ok {A} (a : A) (c : exn_class) : ¬ raises (Ok a) c.
Proof. by intros (e & [=] & _). Qed.

(** ** Acute and chronic workload *)

(** C1, amended. With [W] the workload map of the snapshots, [start] its
    earliest key and [end_] the reference date, if [start <= end_] then
    [compute_acute_workload] returns the weighted 9-day sum over the acute
    divisor whenever the date [end_ - 8 days] exists, and
    [compute_chronic_workload] returns the flat 28-day sum over the chronic
    divisor whenever the date [end_ - 27 days] exists. *)
Theorem workload_formulas snapshots end_date normalized W start end_ :
  window_inputs snapshots end_date normalized W start end_ →
  start ≤ end_ →
  (returns (Datetime.sub_days end_ 8) →
   compute_acute_workload snapshots end_date normalized
   = Ok (acute_formula W start end_))
  ∧ (returns (Datetime.sub_days end_ 27) →
     compute_chronic_workload snapshots end_date normalized
     = Ok (chronic_formula W start end_)).
Proof.
  intros Hin Hle. split; intros Hwin%sub_days_returns.
  - destruct (compute_acute_workload_cases _ _ _ _ _ _ Hin)
      as [[? _]|[(_ & ? & _)|(_ & _ & Hr)]]; [lia|lia|done].
  - destruct (compute_chronic_workload_cases _ _ _ _ _ _ Hin)
      as [[? _]|[(_ & ? & _)|(_ & _ & Hr)]]; [lia|lia|done].
Qed.

Lemma workload_formulas_witness :
  let W : gmap Z float :=
    <[738275 := 21.5%float]> (<[738274 := 0%float]> (<[738273 := 12.25%float]> ∅)) in
  window_inputs april (Some "2022-05-02") true W 738273 738277
  ∧ 738273 ≤ 738277
  ∧ returns (Datetime.sub_days 738277 8)
  ∧ returns (Datetime.sub_days 738277 27)
  ∧ compute_acute_workload april (Some "2022-05-02") true
    = Ok (acute_formula W 738273 738277)
  ∧ compute_chronic_workload april (Some "2022-05-02") true
    = Ok (chronic_formula W 738273 738277).
Proof.
  intros W.
  assert (Hin : window_inputs april (Some "2022-05-02") true W 738273 738277).
  { split; [vm_compute; reflexivity|].
    split; [apply py_min_Ok; vm_compute; reflexivity|reflexivity]. }
  assert (H8 : returns (Datetime.sub_days 738277 8)) by (eexists; reflexivity).
  assert (H27 : returns (Datetime.sub_days 738277 27)) by (eexists; reflexivity).
  assert (Hle : 738273 ≤ 738277) by lia.
  destruct (workload_formulas april (Some "2022-05-02") true W 738273 738277 Hin Hle)
    as [Ha Hc].
  split; [exact Hin|]. split; [exact Hle|]. split; [exact H8|]. split; [exact H27|].
  split; [exact (Ha H8)|exact (Hc H27)].
Defined.

(** C1 as stated fails in the first days of year 1: the snapshot list holds
    the single date 0001-01-05, [start = end_], and the acute window asks
    for the date before 0001-01-01. *)
Lemma workload_formulas_first_days :
  let snapshots := [snap "0001-01-05" 10 10] in
  let W : gmap Z float := <[5 := 10%float]> ∅ in
  window_inputs snapshots None true W 5 5
  ∧ 5 ≤ 5
  ∧ compute_acute_workload snapshots None true = Raise DateOutOfRange
  ∧ compute_acute_workload snapshots None true ≠ Ok (acute_formula W 5 5).
Proof.
  intros snapshots W.
  assert (Hr : compute_acute_workload snapshots None true = Raise DateOutOfRange)
    by (vm_compute; reflexivity).
  split; [|split; [lia|split; [exact Hr|by rewrite Hr]]].
  split; [vm_compute; reflexivity|].
  split; [apply py_min_Ok|apply py_max_Ok]; vm_compute; reflexivity.
Qed.

(** What [compute_acr] does, by cases on its inputs. *)
Lemma compute_acr_cases snapshots end_date normalized W start end_ :
  window_inputs snapshots end_date normalized W start end_ →
  (end_ < start
   ∧ compute_acr snapshots end_date normalized = Raise (StartAfterEnd start end_))
  ∨ (start ≤ end_ ∧ end_ ≤ 27
     ∧ compute_acr snapshots end_date normalized = Raise DateOutOfRange)
  ∨ (start ≤ end_ ∧ 27 < end_ ∧ returns (compute_acr snapshots end_date normalized)).
Proof.
  intros Hin. unfold compute_acr.
  destruct (compute_chronic_workload_cases _ _ _ _ _ _ Hin)
    as [[? ->]|[(? & ? & ->)|(? & ? & ->)]]; simpl; [by left|right; by left|].
  right. right. split; [done|]. split; [done|].
  destruct (PrimFloat.eqb (chronic_formula W start end_) 0) eqn:Hzero; [by eexists|].
  destruct (compute_acute_workload_cases _ _ _ _ _ _ Hin)
    as [[? _]|[(_ & ? & _)|(_ & _ & ->)]]; [lia|lia|]. simpl.
  unfold truediv. rewrite Hzero. by eexists.
Qed.

Lemma sub_days_not_returns (d n : Z) :
  d ≤ Datetime.MAXORDINAL → 0 ≤ n → ¬ returns (Datetime.sub_days d n) → d ≤ n.
Proof.
  intros Hd Hn Hnot. destruct (Z.le_gt_cases d n); [done|].
  destruct Hnot. exists (d - n). apply sub_days_Ok. lia.
Qed.

(** C2, amended. Each of the three computations raises a [ValueError] exactly
    when the earliest snapshot date is after the reference date. Otherwise it
    returns a float when its look-back window stays within the calendar
    ([end_ - 8 days] exists for the acute workload, [end_ - 27 days] for the
    chronic workload and the ratio), and raises an [OverflowError] when the
    window reaches before 0001-01-01. *)
Theorem range_error_iff snapshots end_date normalized W start end_ :
  window_inputs snapshots end_date normalized W start end_ →
  let acute := compute_acute_workload snapshots end_date normalized in
  let chronic := compute_chronic_workload snapshots end_date normalized in
  let acr := compute_acr snapshots end_date normalized in
  (raises acute ValueError ↔ end_ < start)
  ∧ (raises chronic ValueError ↔ end_ < start)
  ∧ (raises acr ValueError ↔ end_ < start)
  ∧ (start ≤ end_ → returns (Datetime.sub_days end_ 8) → returns acute)
  ∧ (start ≤ end_ → returns (Datetime.sub_days end_ 27) →
     returns chronic ∧ returns acr)
  ∧ (start ≤ end_ → ¬ returns (Datetime.sub_days end_ 8) →
     raises acute OverflowError)
  ∧ (start ≤ end_ → ¬ returns (Datetime.sub_days end_ 27) →
     raises chronic OverflowError ∧ raises acr OverflowError).
Proof.
  intros Hin acute chronic acr.
  pose proof (window_inputs_range _ _ _ _ _ _ Hin) as [_ [_ Hmax]].
  pose proof (compute_acute_workload_cases _ _ _ _ _ _ Hin) as Ha.
  pose proof (compute_chronic_workload_cases _ _ _ _ _ _ Hin) as Hc.
  pose proof (compute_acr_cases _ _ _ _ _ _ Hin) as Hr.
  fold acute in Ha. fold chronic in Hc. fold acr in Hr.
  clearbody acute chronic acr.
  assert (Hvalue : ∀ r : result float,
            (end_ < start ∧ r = Raise (StartAfterEnd start end_))
            ∨ (start ≤ end_ ∧ (r = Raise DateOutOfRange ∨ returns r)) →
            raises r ValueError ↔ end_ < start).
  { intros r [[Hlt ->]|[Hle [->|[a ->]]]].
    - rewrite raises_Raise. simpl. tauto.
    - rewrite raises_Raise. simpl. split; [discriminate|lia].
    - split; [by intros ?%raises_Ok|lia]. }
  split; [|split; [|split]].
  - apply Hvalue. destruct Ha as [?|[(? & _ & ?)|(? & _ & ?)]].
    + by left.
    + right. split; [done|by left].
    + right. split; [done|]. right. by eexists.
  - apply Hvalue. destruct Hc as [?|[(? & _ & ?)|(? & _ & ?)]].
    + by left.
    + right. split; [done|by left].
    + right. split; [done|]. right. by eexists.
  - apply Hvalue. destruct Hr as [?|[(? & _ & ?)|(? & _ & ?)]].
    + by left.
    + right. split; [done|by left].
    + right. split; [done|by right].
  - split; [|split; [|split]].
    + intros Hle Hwin%sub_days_returns.
      destruct Ha as [[? _]|[(_ & ? & _)|(_ & _ & ->)]]; [lia|lia|by eexists].
    + intros Hle Hwin%sub_days_returns. split.
      * destruct Hc as [[? _]|[(_ & ? & _)|(_ & _ & ->)]]; [lia|lia|by eexists].
      * destruct Hr as [[? _]|[(_ & ? & _)|(_ & _ & ?)]]; [lia|lia|done].
    + intros Hle Hwin%sub_days_not_returns; [|done|lia].
      destruct Ha as [[? _]|[(_ & _ & ->)|(_ & ? & _)]]; [lia| |lia].
      by apply raises_Raise.
    + intros Hle Hwin%sub_days_not_returns; [|done|lia]. split.
      * destruct Hc as [[? _]|[(_ & _ & ->)|(_ & ? & _)]]; [lia| |lia].
        by apply raises_Raise.
      * destruct Hr as [[? _]|[(_ & _ & ->)|(_ & ? & _)]]; [lia| |lia].
        by apply raises_Raise.
Qed.

Lemma range_error_iff_witness :
  let W : gmap Z float :=
    <[738275 := 21.5%float]> (<[738274 := 0%float]> (<[738273 := 12.25%float]> ∅)) in
  (window_inputs april None true W 738273 738275
   ∧ returns (compute_acute_workload april None true)
   ∧ returns (compute_chronic_workload april None true)
   ∧ returns (compute_acr april None true))
  ∧ (window_inputs april (Some "2021-04-01") true W 738273 737881
     ∧ raises (compute_acute_workload april (Some "2021-04-01") true) ValueError
     ∧ raises (compute_chronic_workload april (Some "2021-04-01") true) ValueError
     ∧ raises (compute_acr april (Some "2021-04-01") true) ValueError).
Proof.
  intros W. split.
  - assert (Hin : window_inputs april None true W 738273 738275).
    { split; [vm_compute; reflexivity|].
      split; [apply py_min_Ok|apply py_max_Ok]; vm_compute; reflexivity. }
    destruct (range_error_iff april None true W 738273 738275 Hin)
      as (_ & _ & _ & Ha & Hc & _).
    split; [exact Hin|]. split.
    + apply Ha; [lia|]. eexists. reflexivity.
    + apply Hc; [lia|]. eexists. reflexivity.
  - assert (Hin : window_inputs april (Some "2021-04-01") true W 738273 737881).
    { split; [vm_compute; reflexivity|].
      split; [apply py_min_Ok; vm_compute; reflexivity|reflexivity]. }
    destruct (range_error_iff april (Some "2021-04-01") true W 738273 737881 Hin)
      as (Ha & Hc & Hr & _).
    split; [exact Hin|]. split; [apply Ha; lia|]. split; [apply Hc; lia|apply Hr; lia].
Defined.

(** C2 as stated fails in the first weeks of year 1: the earliest snapshot
    date 0001-01-20 is not after the reference date 0001-01-25, and yet
    neither the chronic workload nor the ratio is returned. *)
Lemma range_error_iff_first_weeks :
  let snapshots := [snap "0001-01-20" 10 10] in
  let W : gmap Z float := <[20 := 10%float]> ∅ in
  window_inputs snapshots (Some "0001-01-25") true W 20 25
  ∧ ¬ 25 < 20
  ∧ compute_chronic_workload snapshots (Some "0001-01-25") true = Raise DateOutOfRange
  ∧ compute_acr snapshots (Some "0001-01-25") true = Raise DateOutOfRange
  ∧ ¬ returns (compute_chronic_workload snapshots (Some "0001-01-25") true)
  ∧ ¬ returns (compute_acr snapshots (Some "0001-01-25") true).
Proof.
  intros snapshots W.
  assert (Hc : compute_chronic_workload snapshots (Some "0001-01-25") true
               = Raise DateOutOfRange) by (vm_compute; reflexivity).
  assert (Hr : compute_acr snapshots (Some "0001-01-25") true
               = Raise DateOutOfRange) by (vm_compute; reflexivity).
  split; [|split; [lia|split; [exact Hc|split; [exact Hr|]]]].
  - split; [vm_compute; reflexivity|].
    split; [apply py_min_Ok; vm_compute; reflexivity|reflexivity].
  - rewrite Hc, Hr. split; intros [? [=]].
Qed.

(** ** The acute/chronic ratio *)

(** C4. Where [compute_chronic_workload] returns [c]: [compute_acr] returns
    0.0 if [c == 0.0], and otherwise [compute_acute_workload] returns some [a]
    and [compute_acr] returns [a / c]. *)
Theorem acr_of_chronic snapshots end_date normalized (c : float) :
  compute_chronic_workload snapshots end_date normalized = Ok c →
  (PrimFloat.eqb c 0%float = true →
   compute_acr snapshots end_date normalized = Ok 0%float)
  ∧ (PrimFloat.eqb c 0%float = false →
     ∃ a, compute_acute_workload snapshots end_date normalized = Ok a
          ∧ compute_acr snapshots end_date normalized = Ok (PrimFloat.div a c)).
Proof.
  intros Hc.
  destruct (compute_chronic_workload_inputs _ _ _ _ Hc) as (W & start & end_ & Hin).
  unfold compute_acr. rewrite Hc. simpl. split; intros Hzero; rewrite Hzero; [done|].
  destruct (compute_chronic_workload_cases _ _ _ _ _ _ Hin)
    as [[_ Hc']|[(_ & _ & Hc')|(Hle & Hwin & _)]]; [congruence|congruence|].
  destruct (compute_acute_workload_cases _ _ _ _ _ _ Hin)
    as [[? _]|[(_ & ? & _)|(_ & _ & ->)]]; [lia|lia|].
  eexists. split; [done|]. simpl. unfold truediv. by rewrite Hzero.
Qed.

Lemma acr_of_chronic_witness :
  (compute_chronic_workload rest_day None true = Ok 0%float
   ∧ compute_acr rest_day None true = Ok 0%float)
  ∧ (compute_chronic_workload april None true = Ok (33.75 / 7)%float
     ∧ PrimFloat.eqb (33.75 / 7) 0 = false
     ∧ ∃ a, compute_acute_workload april None true = Ok a
            ∧ compute_acr april None true = Ok (a / (33.75 / 7))%float).
Proof.
  split.
  - assert (Hc : compute_chronic_workload rest_day None true = Ok 0%float)
      by (vm_compute; reflexivity).
    split; [exact Hc|].
    apply (acr_of_chronic rest_day None true 0%float Hc). reflexivity.
  - assert (Hc : compute_chronic_workload april None true = Ok (33.75 / 7)%float)
      by (vm_compute; reflexivity).
    split; [exact Hc|]. split; [reflexivity|].
    apply (acr_of_chronic april None true (33.75 / 7)%float Hc). reflexivity.
Defined.

(** ** A reference date away from the data *)

(** C5, amended. If the reference date is more than 8 days before every key
    of the workload map, then no date of the acute window is a key, so every
    term of the acute sum would be zero, and [compute_acute_workload] raises
    the range error: the earliest key is after the reference date. *)
Theorem acute_before_all_data snapshots end_date normalized W start end_ :
  window_inputs snapshots end_date normalized W start end_ →
  (∀ d, d ∈ keys W → end_ + 8 < d) →
  (∀ offset, 0 ≤ offset ≤ 8 → get W (end_ - offset) = 0%float)
  ∧ compute_acute_workload snapshots end_date normalized
    = Raise (StartAfterEnd start end_).
Proof.
  intros Hin Hbefore. split.
  - intros offset Hoff. apply get_absent. intros Hkey%Hbefore. lia.
  - destruct Hin as (HW & Hstart & Hend).
    pose proof (Hbefore start (proj1 Hstart)) as Hlt.
    destruct (compute_acute_workload_cases snapshots end_date normalized W start end_)
      as [[_ Hr]|[(? & _)|(? & _)]]; [done|done|lia|lia].
Qed.

Lemma acute_before_all_data_witness :
  let W : gmap Z float :=
    <[738275 := 21.5%float]> (<[738274 := 0%float]> (<[738273 := 12.25%float]> ∅)) in
  window_inputs april (Some "2022-04-01") true W 738273 738246
  ∧ (∀ d, d ∈ keys W → 738246 + 8 < d)
  ∧ (∀ offset, 0 ≤ offset ≤ 8 → get W (738246 - offset) = 0%float)
  ∧ compute_acute_workload april (Some "2022-04-01") true
    = Raise (StartAfterEnd 738273 738246).
Proof.
  intros W.
  assert (Hin : window_inputs april (Some "2022-04-01") true W 738273 738246).
  { split; [vm_compute; reflexivity|].
    split; [apply py_min_Ok; vm_compute; reflexivity|reflexivity]. }
  assert (Hbefore : ∀ d, d ∈ keys W → 738246 + 8 < d).
  { intros d Hd. apply (proj2 (proj1 (proj2 Hin))) in Hd. lia. }
  split; [exact Hin|]. split; [exact Hbefore|].
  exact (acute_before_all_data april (Some "2022-04-01") true W 738273 738246 Hin Hbefore).
Defined.

(** C5 as stated fails: the reference date 2022-04-01 is 27 days before the
    first snapshot, and the call raises instead of returning 0.0. *)
Lemma acute_before_all_data_raises :
  let W : gmap Z float :=
    <[738275 := 21.5%float]> (<[738274 := 0%float]> (<[738273 := 12.25%float]> ∅)) in
  _get_workloads_by_date april true = Ok W
  ∧ Datetime.fromisoformat "2022-04-01" = Ok 738246
  ∧ (∀ d, d ∈ keys W → 738246 + 8 < d)
  ∧ compute_acute_workload april (Some "2022-04-01") true
    = Raise (StartAfterEnd 738273 738246)
  ∧ compute_acute_workload april (Some "2022-04-01") true ≠ Ok 0%float.
Proof.
  intros W.
  assert (Hr : compute_acute_workload april (Some "2022-04-01") true
               = Raise (StartAfterEnd 738273 738246)) by (vm_compute; reflexivity).
  split; [vm_compute; reflexivity|]. split; [reflexivity|].
  split; [|split; [exact Hr|by rewrite Hr]].
  intros d Hd.
  assert (Hmin : earliest (keys W) 738273) by (apply py_min_Ok; vm_compute; reflexivity).
  apply Hmin in Hd. lia.
Qed.

Lemma acute_formula_no_data (W : gmap Z float) (start end_ : Z) :
  start + 6 ≤ end_ →
  (∀ offset, 0 ≤ offset ≤ 8 → W !! (end_ - offset) = None) →
  acute_formula W start end_ = 0%float.
Proof.
  intros Hspan Habsent. unfold acute_formula, _get_acute_divisor.
  destruct (Z.leb_spec 6 (end_ - start)); [|lia].
  change (seqZ 0 9) with [0; 1; 2; 3; 4; 5; 6; 7; 8]. simpl foldl.
  rewrite !Habsent by lia. reflexivity.
Qed.

(** C6. For a non-empty snapshot list and a supplied end date at least 9
    days after every snapshot date, [compute_acute_workload] returns 0.0. *)
Theorem acute_after_all_data snapshots (s : string) normalized W end_ :
  _get_workloads_by_date snapshots normalized = Ok W →
  snapshots ≠ [] →
  Datetime.fromisoformat s = Ok end_ →
  (∀ d, d ∈ keys W → d + 9 ≤ end_) →
  compute_acute_workload snapshots (Some s) normalized = Ok 0%float.
Proof.
  intros HW Hne Hs Hafter.
  destruct (earliest_exists (keys W)) as [start Hstart]; [by eapply workloads_nonempty|].
  assert (Hin : window_inputs snapshots (Some s) normalized W start end_).
  { split; [done|]. split; [done|]. by apply reference_date_supplied. }
  pose proof (window_inputs_range _ _ _ _ _ _ Hin) as [Hrange _].
  pose proof (Hafter start (proj1 Hstart)) as Hlate.
  destruct (compute_acute_workload_cases _ _ _ _ _ _ Hin)
    as [[? _]|[(_ & ? & _)|(_ & _ & ->)]]; [lia|lia|].
  f_equal. apply acute_formula_no_data; [lia|].
  intros offset Hoff. apply eq_None_not_Some. intros Hkey%elem_of_keys%Hafter. lia.
Qed.

Lemma acute_after_all_data_witness :
  let W : gmap Z float :=
    <[738275 := 21.5%float]> (<[738274 := 0%float]> (<[738273 := 12.25%float]> ∅)) in
  _get_workloads_by_date april true = Ok W
  ∧ april ≠ []
  ∧ Datetime.fromisoformat "2023-04-30" = Ok 738640
  ∧ (∀ d, d ∈ keys W → d + 9 ≤ 738640)
  ∧ compute_acute_workload april (Some "2023-04-30") true = Ok 0%float.
Proof.
  intros W.
  assert (HW : _get_workloads_by_date april true = Ok W) by (vm_compute; reflexivity).
  assert (Hne : april ≠ []) by discriminate.
  assert (Hs : Datetime.fromisoformat "2023-04-30" = Ok 738640) by reflexivity.
  assert (Hafter : ∀ d, d ∈ keys W → d + 9 ≤ 738640).
  { intros d Hd.
    assert (Hmax : latest (keys W) 738275) by (apply py_max_Ok; vm_compute; reflexivity).
    apply Hmax in Hd. lia. }
  split; [exact HW|]. split; [exact Hne|]. split; [exact Hs|]. split; [exact Hafter|].
  exact (acute_after_all_data april "2023-04-30" true W 738640 HW Hne Hs Hafter).
Defined.

(** ** No snapshots *)

(** C8. On the empty snapshot list the three computations raise the
    [ValueError] of the minimum of an empty sequence, whatever the end date. *)
Theorem empty_snapshots_raise (end_date : option string) (normalized : bool) :
  compute_acute_workload [] end_date normalized = Raise EmptySequence
  ∧ compute_chronic_workload [] end_date normalized = Raise EmptySequence
  ∧ compute_acr [] end_date normalized = Raise EmptySequence
  ∧ class_of EmptySequence = ValueError.
Proof.
  unfold compute_acr, compute_acute_workload, compute_chronic_workload. simpl.
  rewrite keys_empty. simpl. done.
Qed.

(** ** The divisor is never zero *)

(** C9. When the earliest key is not after the reference date, the timespan
    is non-negative, the acute divisor is at least 3 and the chronic divisor
    at least 5, the divisions by them return, and neither computation raises
    a [ZeroDivisionError]. *)
Theorem divisor_never_zero snapshots end_date normalized W start end_ :
  window_inputs snapshots end_date normalized W start end_ →
  start ≤ end_ →
  let timespan := Datetime.days_between end_ start in
  0 ≤ timespan
  ∧ 3 ≤ _get_acute_divisor timespan
  ∧ 5 ≤ _get_chronic_divisor timespan
  ∧ (∀ total, returns (truediv_int total (_get_acute_divisor timespan)))
  ∧ (∀ total, returns (truediv_int total (_get_chronic_divisor timespan)))
  ∧ ¬ raises (compute_acute_workload snapshots end_date normalized) ZeroDivisionError
  ∧ ¬ raises (compute_chronic_workload snapshots end_date normalized) ZeroDivisionError.
Proof.
  intros Hin Hle timespan.
  assert (Hspan : 0 ≤ timespan) by (unfold timespan, Datetime.days_between; lia).
  pose proof (acute_divisor_range timespan Hspan) as Ha.
  pose proof (chronic_divisor_range timespan Hspan) as Hc.
  split; [done|]. split; [lia|]. split; [lia|].
  split; [|split; [|split]].
  - intros total. rewrite truediv_int_Ok by lia. by eexists.
  - intros total. rewrite truediv_int_Ok by lia. by eexists.
  - destruct (compute_acute_workload_cases _ _ _ _ _ _ Hin)
      as [[_ ->]|[(_ & _ & ->)|(_ & _ & ->)]];
      rewrite ?raises_Raise; simpl; try discriminate. apply raises_Ok.
  - destruct (compute_chronic_workload_cases _ _ _ _ _ _ Hin)
      as [[_ ->]|[(_ & _ & ->)|(_ & _ & ->)]];
      rewrite ?raises_Raise; simpl; try discriminate. apply raises_Ok.
Qed.

Lemma divisor_never_zero_witness :
  let W : gmap Z float :=
    <[738275 := 21.5%float]> (<[738274 := 0%float]> (<[738273 := 12.25%float]> ∅)) in
  window_inputs april None true W 738273 738275
  ∧ 738273 ≤ 738275
  ∧ 3 ≤ _get_acute_divisor (Datetime.days_between 738275 738273)
  ∧ 5 ≤ _get_chronic_divisor (Datetime.days_between 738275 738273)
  ∧ ¬ raises (compute_acute_workload april None true) ZeroDivisionError
  ∧ ¬ raises (compute_chronic_workload april None true) ZeroDivisionError.
Proof.
  intros W.
  assert (Hin : window_inputs april None true W 738273 738275).
  { split; [vm_compute; reflexivity|].
    split; [apply py_min_Ok|apply py_max_Ok]; vm_compute; reflexivity. }
  assert (Hle : 738273 ≤ 738275) by lia.
  destruct (divisor_never_zero april None true W 738273 738275 Hin Hle)
    as (_ & Ha & Hc & _ & _ & Hna & Hnc).
  split; [exact Hin|]. split; [exact Hle|]. split; [exact Ha|]. split; [exact Hc|].
  split; [exact Hna|exact Hnc].
Defined.

(** ** Calendar dates and their strings *)

Lemma is_leap_decompose (a b c e : Z) :
  0 ≤ a → 0 ≤ b < 4 → 0 ≤ c < 25 → 0 ≤ e < 4 →
  Datetime.is_leap (400 * a + 100 * b + 4 * c + e + 1)
  = (e =? 3) && (negb (c =? 24) || (b =? 3)).
Proof.
  intros Ha Hb Hc He. unfold Datetime.is_leap.
  set (y := 400 * a + 100 * b + 4 * c + e + 1).
  destruct (Z.eqb_spec e 3), (Z.eqb_spec c 24), (Z.eqb_spec b 3),
    (Z.eqb_spec (y mod 4) 0), (Z.eqb_spec (y mod 100) 0), (Z.eqb_spec (y mod 400) 0);
    simpl; try reflexivity; exfalso; subst y; Z.div_mod_to_equations; lia.
Qed.

Lemma days_before_year_decompose (a b c e : Z) :
  0 ≤ a → 0 ≤ b < 4 → 0 ≤ c < 25 → 0 ≤ e < 4 →
  Datetime.days_before_year (400 * a + 100 * b + 4 * c + e + 1)
  = 146097 * a + 36524 * b + 1461 * c + 365 * e.
Proof.
  intros Ha Hb Hc He. unfold Datetime.days_before_year. cbv zeta.
  Z.div_mod_to_equations. lia.
Qed.

Lemma valid_ymd_intro (year month day : Z) :
  1 ≤ year ≤ 9999 → 1 ≤ month ≤ 12 → 1 ≤ day ≤ Datetime.days_in_month year month →
  Datetime.valid_ymd year month day = true.
Proof.
  intros Hy Hm Hd. unfold Datetime.valid_ymd, Datetime.MINYEAR, Datetime.MAXYEAR.
  rewrite !andb_true_iff, !Z.leb_le. lia.
Qed.

Ltac table_lookup :=
  repeat match goal with
  | |- context [Z.to_nat ?k] =>
      let v := eval vm_compute in (Z.to_nat k) in change (Z.to_nat k) with v
  end; cbn [nth].

Lemma year_end_spec (year : Z) :
  1 ≤ year ≤ 9999 → Datetime.is_leap year = true →
  Datetime.valid_ymd year 12 31 = true
  ∧ Datetime.ymd2ord year 12 31 = Datetime.days_before_year year + 366.
Proof.
  intros Hy Hleap. split.
  - apply valid_ymd_intro; [done|lia|]. unfold Datetime.days_in_month. simpl andb.
    table_lookup. lia.
  - unfold Datetime.ymd2ord, Datetime.days_before_month. rewrite Hleap.
    simpl andb. table_lookup. lia.
Qed.

Lemma month_day_spec (year r : Z) :
  0 ≤ r ≤ 364 →
  let leapyear := Datetime.is_leap year in
  let month := Z.shiftr (r + 50) 5 in
  let preceding :=
    nth (Z.to_nat month) [-1; 0; 31; 59; 90; 120; 151; 181; 212; 243; 273; 304; 334] 0
    + (if (2 <? month) && leapyear then 1 else 0) in
  ∃ m d,
    (if r <? preceding then
       let month := month - 1 in
       let preceding :=
         preceding
         - (nth (Z.to_nat month) [-1; 31; 28; 31; 30; 31; 30; 31; 31; 30; 31; 30; 31] 0
            + (if (month =? 2) && leapyear then 1 else 0)) in
       (year, month, r - preceding + 1)
     else (year, month, r - preceding + 1)) = (year, m, d)
    ∧ 1 ≤ m ≤ 12
    ∧ 1 ≤ d ≤ Datetime.days_in_month year m
    ∧ Datetime.days_before_month year m + d = r + 1.
Proof.
  intros Hr leapyear month preceding.
  unfold Datetime.days_in_month, Datetime.days_before_month.
  fold leapyear. subst preceding month. rewrite Z.shiftr_div_pow2 by lia.
  change (2 ^ 5) with 32.
  pose proof (Z.div_mod (r + 50) 32 ltac:(lia)) as E.
  pose proof (Z.mod_pos_bound (r + 50) 32 ltac:(lia)) as B.
  set (q := (r + 50) / 32) in *. clearbody q.
  assert (Hq : q = 1 ∨ q = 2 ∨ q = 3 ∨ q = 4 ∨ q = 5 ∨ q = 6 ∨ q = 7 ∨ q = 8
               ∨ q = 9 ∨ q = 10 ∨ q = 11 ∨ q = 12) by lia.
  destruct leapyear;
    repeat (destruct Hq as [->|Hq]); try subst q; cbv zeta;
    simpl Z.sub; simpl Z.ltb at 2; simpl Z.eqb; simpl andb; table_lookup;
    match goal with
    | |- context [r <? ?p] => destruct (Z.ltb_spec r p)
    end;
    eexists _, _; (split; [reflexivity|]); simpl Z.eqb; simpl andb; table_lookup; lia.
Qed.

Lemma ord2ymd_spec (n : Z) :
  1 ≤ n ≤ Datetime.MAXORDINAL →
  ∃ year month day,
    Datetime.ord2ymd n = (year, month, day)
    ∧ Datetime.valid_ymd year month day = true
    ∧ Datetime.ymd2ord year month day = n.
Proof.
  unfold Datetime.MAXORDINAL. intros Hn. unfold Datetime.ord2ymd. cbv zeta.
  pose proof (Z.div_mod (n - 1) 146097 ltac:(lia)) as E1.
  pose proof (Z.mod_pos_bound (n - 1) 146097 ltac:(lia)) as B1.
  set (a := (n - 1) / 146097) in *. set (r1 := (n - 1) mod 146097) in *.
  pose proof (Z.div_mod r1 36524 ltac:(lia)) as E2.
  pose proof (Z.mod_pos_bound r1 36524 ltac:(lia)) as B2.
  set (b := r1 / 36524) in *. set (r2 := r1 mod 36524) in *.
  pose proof (Z.div_mod r2 1461 ltac:(lia)) as E3.
  pose proof (Z.mod_pos_bound r2 1461 ltac:(lia)) as B3.
  set (c := r2 / 1461) in *. set (r3 := r2 mod 1461) in *.
  pose proof (Z.div_mod r3 365 ltac:(lia)) as E4.
  pose proof (Z.mod_pos_bound r3 365 ltac:(lia)) as B4.
  set (e := r3 / 365) in *. set (r4 := r3 mod 365) in *.
  clearbody a r1 b r2 c r3 e r4.
  assert (Ha : 0 ≤ a ≤ 24) by lia.
  assert (Hb : 0 ≤ b ≤ 4) by lia.
  assert (Hc : 0 ≤ c ≤ 24) by lia.
  assert (He : 0 ≤ e ≤ 4) by lia.
  destruct (Z.eqb_spec e 4) as [He4|He4]; [|destruct (Z.eqb_spec b 4) as [Hb4|Hb4]];
    simpl orb; cbv iota.
  - (* the last day of a leap year that is not the last of its century *)
    eexists _, _, _. split; [reflexivity|].
    replace (a * 400 + 1 + b * 100 + c * 4 + e - 1)
      with (400 * a + 100 * b + 4 * c + 3 + 1) by lia.
    assert (Hb' : 0 ≤ b < 4) by lia.
    assert (Hc' : 0 ≤ c < 24) by lia.
    destruct (year_end_spec (400 * a + 100 * b + 4 * c + 3 + 1)) as [Hvalid Hord].
    + lia.
    + rewrite is_leap_decompose by lia.
      destruct (Z.eqb_spec c 24); [lia|done].
    + split; [done|]. rewrite Hord, days_before_year_decompose by lia. lia.
  - (* the last day of a 400-year cycle *)
    eexists _, _, _. split; [reflexivity|].
    replace (a * 400 + 1 + b * 100 + c * 4 + e - 1)
      with (400 * a + 100 * 3 + 4 * 24 + 3 + 1) by lia.
    destruct (year_end_spec (400 * a + 100 * 3 + 4 * 24 + 3 + 1)) as [Hvalid Hord].
    + lia.
    + by rewrite is_leap_decompose by lia.
    + split; [done|]. rewrite Hord, days_before_year_decompose by lia. lia.
  - assert (Hb' : 0 ≤ b < 4) by lia.
    assert (Hc' : 0 ≤ c < 25) by lia.
    assert (He' : 0 ≤ e < 4) by lia.
    replace (a * 400 + 1 + b * 100 + c * 4 + e)
      with (400 * a + 100 * b + 4 * c + e + 1) by lia.
    set (year := 400 * a + 100 * b + 4 * c + e + 1).
    rewrite <- (is_leap_decompose a b c e) by lia. fold year.
    pose proof (month_day_spec year r4 ltac:(lia)) as Hmd. cbv zeta in Hmd.
    destruct Hmd as (m & d & Heq & Hm & Hd & Hdoy).
    exists year, m, d. split; [exact Heq|].
    assert (Hyear : 1 ≤ year ≤ 9999) by (unfold year; lia).
    split; [by apply valid_ymd_intro|].
    unfold Datetime.ymd2ord. unfold year at 1.
    rewrite days_before_year_decompose by lia. lia.
Qed.

Lemma digit_digit_char (k : Z) : 0 ≤ k ≤ 9 → Datetime.digit (Datetime.digit_char k) = Some k.
Proof.
  intros Hk.
  assert (Hcases : k = 0 ∨ k = 1 ∨ k = 2 ∨ k = 3 ∨ k = 4 ∨ k = 5 ∨ k = 6 ∨ k = 7
                   ∨ k = 8 ∨ k = 9) by lia.
  repeat (destruct Hcases as [->|Hcases]); try subst k; reflexivity.
Qed.

Lemma digits_zero_padded (width : nat) (n : Z) (acc : list Ascii.ascii) (k : Z) :
  0 ≤ n < 10 ^ Z.of_nat width →
  Datetime.digits (Datetime.zero_padded width n acc) k
  = Datetime.digits acc (k * 10 ^ Z.of_nat width + n).
Proof.
  revert n acc k. induction width as [|width IH]; intros n acc k Hn.
  - simpl in *. f_equal. lia.
  - rewrite Nat2Z.inj_succ, Z.pow_succ_r in * by lia.
    cbn [Datetime.zero_padded]. rewrite IH by (Z.div_mod_to_equations; lia).
    cbn [Datetime.digits].
    rewrite digit_digit_char by (Z.div_mod_to_equations; lia).
    f_equal. Z.div_mod_to_equations. lia.
Qed.

Lemma fromisoformat_isoformat (d : Z) :
  1 ≤ d ≤ Datetime.MAXORDINAL → Datetime.fromisoformat (Datetime.isoformat d) = Ok d.
Proof.
  intros Hd. unfold Datetime.isoformat.
  destruct (ord2ymd_spec d Hd) as (year & month & day & -> & Hvalid & Hord).
  unfold Datetime.fromisoformat. rewrite String.list_ascii_of_string_of_list_ascii.
  pose proof Hvalid as Hrange.
  unfold Datetime.valid_ymd, Datetime.MINYEAR, Datetime.MAXYEAR in Hrange.
  rewrite !andb_true_iff, !Z.leb_le in Hrange.
  destruct Hrange as [[[[[Hy1 Hy2] Hm1] Hm2] Hd1] Hd2].
  assert (Hdim : Datetime.days_in_month year month ≤ 31).
  { unfold Datetime.days_in_month. case_match; [lia|].
    assert (Hcases : month = 1 ∨ month = 2 ∨ month = 3 ∨ month = 4 ∨ month = 5
                     ∨ month = 6 ∨ month = 7 ∨ month = 8 ∨ month = 9
                     ∨ month = 10 ∨ month = 11 ∨ month = 12) by lia.
    repeat (destruct Hcases as [->|Hcases]); try subst month; table_lookup; lia. }
  cbn [Datetime.zero_padded app].
  change [Datetime.digit_char (year / 10 / 10 / 10 mod 10);
          Datetime.digit_char (year / 10 / 10 mod 10);
          Datetime.digit_char (year / 10 mod 10); Datetime.digit_char (year mod 10)]
    with (Datetime.zero_padded 4 year []).
  change [Datetime.digit_char (month / 10 mod 10); Datetime.digit_char (month mod 10)]
    with (Datetime.zero_padded 2 month []).
  change [Datetime.digit_char (day / 10 mod 10); Datetime.digit_char (day mod 10)]
    with (Datetime.zero_padded 2 day []).
  rewrite !digits_zero_padded by (simpl; lia). cbn [Datetime.digits].
  replace (0 * 10 ^ Z.of_nat 4 + year) with year by lia.
  replace (0 * 10 ^ Z.of_nat 2 + month) with month by lia.
  replace (0 * 10 ^ Z.of_nat 2 + day) with day by lia.
  rewrite Hvalid. simpl. by rewrite Hord.
Qed.


(** ** More on the filters *)

(** X1. What [filter_by_tag] keeps is a sublist of the events, in their order;
    every kept event passes the tag test of the call; filtering the result
    again the same way changes nothing, and filtering it the opposite way
    leaves nothing. *)
Theorem filter_by_tag_kept (events : list event) (tags : tags_arg) (blacklist : bool) :
  let kept := filter_by_tag events tags blacklist in
  kept `sublist_of` events
  ∧ (∀ e, e ∈ kept → if blacklist then tag e ∉ tag_list tags else tag e ∈ tag_list tags)
  ∧ filter_by_tag kept tags blacklist = kept
  ∧ filter_by_tag kept tags (negb blacklist) = [].
Proof.
  unfold filter_by_tag. fold (tag_list tags). set (ts := tag_list tags).
  destruct blacklist; simpl.
  - split; [apply sublist_filter|]. split; [|split].
    + by intros e [? _]%list_elem_of_filter.
    + by apply list_filter_filter_l.
    + rewrite list_filter_filter. induction events as [|e events IH]; [done|].
      rewrite filter_cons_False; [done|tauto].
  - split; [apply sublist_filter|]. split; [|split].
    + by intros e [? _]%list_elem_of_filter.
    + by apply list_filter_filter_l.
    + rewrite list_filter_filter. induction events as [|e events IH]; [done|].
      rewrite filter_cons_False; [done|tauto].
Qed.

(** X2. With an empty list of tags the white-list result is empty and the
    black-list result is the whole input. *)
Theorem filter_by_tag_no_tags (events : list event) :
  filter_by_tag events (TagList []) false = []
  ∧ filter_by_tag events (TagList []) true = events.
Proof.
  unfold filter_by_tag. simpl. split.
  - induction events as [|e events IH]; [done|].
    rewrite filter_cons_False; [done|]. apply not_elem_of_nil.
  - induction events as [|e events IH]; [done|].
    rewrite filter_cons_True; [by rewrite IH|]. apply not_elem_of_nil.
Qed.

Lemma flag_filter_split {A} (flag : A → option bool) (l : list A) :
  filter (λ x, flag x = Some true) l ++ filter (λ x, flag x = Some false) l
    ++ filter (λ x, flag x = None) l ≡ₚ l.
Proof.
  rewrite <- (filter_app_complement (λ x, flag x = Some true) l) at 4.
  apply Permutation_app_head.
  rewrite <- (filter_app_complement (λ x, flag x = Some false)
                (filter (λ x, ¬ flag x = Some true) l)).
  rewrite (list_filter_filter_l (λ x, flag x = Some false)); [|congruence].
  apply Permutation_app_head. rewrite list_filter_filter.
  erewrite list_filter_iff; [done|].
  intros x. simpl. destruct (flag x) as [[]|]; intuition congruence.
Qed.

(** X3. [filter_simulated] and [filter_high_effort] keep exactly the events
    whose flag is the requested boolean. An event whose flag is absent or null
    is in neither result: the two results and the events without the flag
    together are a rearrangement of the input. *)
Theorem flag_filters_split (events : list throw) :
  (∀ b e, e ∈ filter_simulated events b ↔ e ∈ events ∧ simulated e = Some b)
  ∧ (∀ b e, e ∈ filter_high_effort events b ↔ e ∈ events ∧ highEffort e = Some b)
  ∧ filter_simulated events true ++ filter_simulated events false
      ++ filter (λ e, simulated e = None) events ≡ₚ events
  ∧ filter_high_effort events true ++ filter_high_effort events false
      ++ filter (λ e, highEffort e = None) events ≡ₚ events.
Proof.
  unfold filter_simulated, filter_high_effort. split; [|split; [|split]].
  - intros b e. rewrite list_elem_of_filter. tauto.
  - intros b e. rewrite list_elem_of_filter. tauto.
  - apply flag_filter_split.
  - apply flag_filter_split.
Qed.

(** X4. The two flag filters commute, each is idempotent, and filtering a
    result by the opposite value of the same flag leaves nothing. *)
Theorem flag_filters_compose (events : list throw) (s h : bool) :
  filter_simulated (filter_high_effort events h) s
  = filter_high_effort (filter_simulated events s) h
  ∧ filter_simulated (filter_simulated events s) s = filter_simulated events s
  ∧ filter_high_effort (filter_high_effort events h) h = filter_high_effort events h
  ∧ filter_simulated (filter_simulated events s) (negb s) = []
  ∧ filter_high_effort (filter_high_effort events h) (negb h) = [].
Proof.
  unfold filter_simulated, filter_high_effort. split; [|split; [|split; [|split]]].
  - rewrite !list_filter_filter. apply list_filter_iff. tauto.
  - by apply list_filter_filter_l.
  - by apply list_filter_filter_l.
  - rewrite list_filter_filter. induction events as [|e events IH]; [done|].
    rewrite filter_cons_False; [done|]. intros [-> ?]. by destruct s.
  - rewrite list_filter_filter. induction events as [|e events IH]; [done|].
    rewrite filter_cons_False; [done|]. intros [-> ?]. by destruct h.
Qed.


(** ** The workload sum *)

Lemma sum_from_pure {A} (f : A → float) (items : list A) (acc : float) :
  sum_from (λ x, Ok (f x)) items acc
  = Ok (foldl (λ a x, PrimFloat.add a (f x)) acc items).
Proof. by apply sum_from_Ok. Qed.

(** X5. [sum_workload] returns a total, and the sum over [events ++ more]
    continues from the total of [events]: the workloads of [more] are added to
    it one by one, so an appended event adds its workload to the total. *)
Theorem sum_workload_running_total (events more : list event) (normalized : bool) :
  ∃ total,
    sum_workload events normalized = Ok total
    ∧ sum_workload (events ++ more) normalized
      = Ok (foldl (λ acc e, PrimFloat.add acc (workload_of normalized e)) total more)
    ∧ (∀ e, sum_workload (events ++ [e]) normalized
            = Ok (PrimFloat.add total (workload_of normalized e))).
Proof.
  unfold sum_workload, py_sum. fold (workload_of normalized).
  rewrite !(sum_from_pure (workload_of normalized)).
  eexists. split; [done|]. split.
  - by rewrite foldl_app.
  - intros e. by rewrite sum_from_pure, foldl_app.
Qed.


(** ** The request payload *)

(** X6. [_format_user_ids] never returns an empty list: no ids, an empty string
    or an empty list give the session owner's id alone; a non-empty list is
    returned as it is and a non-empty string as a one-element list; the
    result passed in again is returned unchanged. *)
Theorem format_user_ids_nonempty (user_id : string) (user_ids : option ids_arg) :
  let users := _format_user_ids user_id user_ids in
  users ≠ []
  ∧ (falsy_ids user_ids = true → users = [user_id])
  ∧ (∀ l, l ≠ [] → _format_user_ids user_id (Some (IdList l)) = l)
  ∧ (∀ s, s ≠ "" → _format_user_ids user_id (Some (IdStr s)) = [s])
  ∧ _format_user_ids user_id (Some (IdList users)) = users.
Proof.
  unfold _format_user_ids. split; [|split; [|split; [|split]]].
  - destruct user_ids as [[s|[|u l]]|]; simpl; try done. by destruct (String.eqb s "").
  - by intros ->.
  - by intros [|u l].
  - intros s Hs. simpl. by destruct (String.eqb_spec s "").
  - destruct user_ids as [[s|[|u l]]|]; simpl; try done. by destruct (String.eqb s "").
Qed.

Lemma bind_Ok_l {A B} (a : A) (k : A → result B) : Ok a ≫= k = k a.
Proof. reflexivity. Qed.

Lemma date_or_supplied (s : string) (d : Z) (otherwise : result Z) :
  Datetime.fromisoformat s = Ok d → date_or (Some s) otherwise = Ok d.
Proof.
  intros Hs. unfold date_or. destruct (String.eqb_spec s ""); [|done].
  subst s. discriminate.
Qed.

Lemma date_or_range (s : option string) (otherwise : result Z) (d : Z) :
  (∀ o, otherwise = Ok o → 1 ≤ o ≤ Datetime.MAXORDINAL) →
  date_or s otherwise = Ok d → 1 ≤ d ≤ Datetime.MAXORDINAL.
Proof.
  intros Hother. unfold date_or.
  destruct s as [s|]; [destruct (String.eqb s "")|]; [apply Hother| |apply Hother].
  apply fromisoformat_range.
Qed.

Lemma format_dates_Ok_inv (today : Z) (start_date end_date : option string) (s e : string) :
  1 ≤ today ≤ Datetime.MAXORDINAL →
  _format_dates today start_date end_date = Ok (s, e) →
  ∃ start end_,
    date_or end_date (Ok today) = Ok end_
    ∧ date_or start_date (Datetime.sub_days end_ 8) = Ok start
    ∧ start ≤ end_
    ∧ 1 ≤ start ≤ Datetime.MAXORDINAL ∧ 1 ≤ end_ ≤ Datetime.MAXORDINAL
    ∧ s = Datetime.isoformat start ∧ e = Datetime.isoformat end_.
Proof.
  intros Htoday. unfold _format_dates. intros Hr.
  apply bind_Ok in Hr as (end_ & Hend & Hr).
  apply bind_Ok in Hr as (start & Hstart & Hr).
  destruct (Z.ltb_spec end_ start); [discriminate|]. injection Hr as <- <-.
  exists start, end_. split; [done|]. split; [done|]. split; [done|].
  assert (1 ≤ end_ ≤ Datetime.MAXORDINAL) as Hrange.
  { eapply date_or_range; [|done]. by intros o [= <-]. }
  split; [|done]. eapply date_or_range; [|done].
  intros o [-> ?]%sub_days_inv. lia.
Qed.

(** X7. For two supplied valid dates, [_format_dates] raises the range error
    when the start is after the end; otherwise it returns two strings that
    parse back to the same two dates. *)
Theorem format_dates_supplied (today : Z) (s e : string) (start end_ : Z) :
  Datetime.fromisoformat s = Ok start →
  Datetime.fromisoformat e = Ok end_ →
  (end_ < start →
   _format_dates today (Some s) (Some e) = Raise (StartAfterEnd start end_))
  ∧ (start ≤ end_ →
     ∃ s' e', _format_dates today (Some s) (Some e) = Ok (s', e')
              ∧ Datetime.fromisoformat s' = Ok start
              ∧ Datetime.fromisoformat e' = Ok end_).
Proof.
  intros Hs He. unfold _format_dates.
  rewrite (date_or_supplied e end_), bind_Ok_l by done.
  rewrite (date_or_supplied s start), bind_Ok_l by done.
  split; intros Hle.
  - by destruct (Z.ltb_spec end_ start); [|lia].
  - destruct (Z.ltb_spec end_ start); [lia|].
    eexists _, _. split; [done|].
    split; apply fromisoformat_isoformat; by eapply fromisoformat_range.
Qed.

Lemma format_dates_supplied_witness :
  Datetime.fromisoformat "2022-05-02" = Ok 738277
  ∧ Datetime.fromisoformat "2022-05-10" = Ok 738285
  ∧ _format_dates 738275 (Some "2022-05-10") (Some "2022-05-02")
    = Raise (StartAfterEnd 738285 738277)
  ∧ ∃ s' e', _format_dates 738275 (Some "2022-05-02") (Some "2022-05-10") = Ok (s', e')
             ∧ Datetime.fromisoformat s' = Ok 738277
             ∧ Datetime.fromisoformat e' = Ok 738285.
Proof.
  assert (Hs : Datetime.fromisoformat "2022-05-02" = Ok 738277) by reflexivity.
  assert (He : Datetime.fromisoformat "2022-05-10" = Ok 738285) by reflexivity.
  split; [exact Hs|]. split; [exact He|]. split.
  - apply (format_dates_supplied 738275 "2022-05-10" "2022-05-02" 738285 738277 He Hs). lia.
  - apply (format_dates_supplied 738275 "2022-05-02" "2022-05-10" 738277 738285 Hs He). lia.
Defined.

(** X8. Without a start date, [_format_dates] never raises the range error:
    when the date [end_ - 8 days] exists it returns the strings of that date
    and of the end date, and the dates from start to end are exactly the nine
    dates of the acute window ending at the end date; when it does not exist
    the call raises an [OverflowError]. *)
Theorem format_dates_default_start (today : Z) (start_date end_date : option string)
    (end_ : Z) :
  1 ≤ today ≤ Datetime.MAXORDINAL →
  start_date = None ∨ start_date = Some "" →
  date_or end_date (Ok today) = Ok end_ →
  (returns (Datetime.sub_days end_ 8) →
   ∃ s' e', _format_dates today start_date end_date = Ok (s', e')
            ∧ Datetime.fromisoformat s' = Ok (end_ - 8)
            ∧ Datetime.fromisoformat e' = Ok end_
            ∧ ∀ d, end_ - 8 ≤ d ≤ end_ ↔
                   ∃ offset, offset ∈ range ACUTE_LENGTH
                             ∧ Datetime.sub_days end_ offset = Ok d)
  ∧ (¬ returns (Datetime.sub_days end_ 8) →
     _format_dates today start_date end_date = Raise DateOutOfRange).
Proof.
  intros Htoday Hstart Hend.
  assert (1 ≤ end_ ≤ Datetime.MAXORDINAL) as Hrange.
  { eapply date_or_range; [|done]. by intros o [= <-]. }
  assert (date_or start_date (Datetime.sub_days end_ 8) = Datetime.sub_days end_ 8)
    as Hdefault by (by destruct Hstart as [->| ->]).
  unfold _format_dates. rewrite Hend, bind_Ok_l, Hdefault. split.
  - intros Hwin%sub_days_returns. rewrite sub_days_Ok, bind_Ok_l by lia.
    destruct (Z.ltb_spec end_ (end_ - 8)); [lia|].
    eexists _, _. split; [done|].
    split; [apply fromisoformat_isoformat; lia|].
    split; [by apply fromisoformat_isoformat|].
    intros d. split.
    + intros Hd. exists (end_ - d). split; [apply elem_of_range; unfold ACUTE_LENGTH; lia|].
      rewrite sub_days_Ok by lia. f_equal. lia.
    + intros (offset & Hoff%elem_of_range & [-> _]%sub_days_inv).
      unfold ACUTE_LENGTH in Hoff. lia.
  - intros Hwin%sub_days_not_returns; [|lia|lia].
    by rewrite sub_days_Raise by lia.
Qed.

Lemma format_dates_default_start_witness :
  1 ≤ 738275 ≤ Datetime.MAXORDINAL
  ∧ date_or (Some "2022-05-10") (Ok 738275) = Ok 738285
  ∧ returns (Datetime.sub_days 738285 8)
  ∧ ∃ s' e', _format_dates 738275 None (Some "2022-05-10") = Ok (s', e')
             ∧ Datetime.fromisoformat s' = Ok (738285 - 8)
             ∧ Datetime.fromisoformat e' = Ok 738285
             ∧ ∀ d, 738285 - 8 ≤ d ≤ 738285 ↔
                    ∃ offset, offset ∈ range ACUTE_LENGTH
                              ∧ Datetime.sub_days 738285 offset = Ok d.
Proof.
  assert (Htoday : 1 ≤ 738275 ≤ Datetime.MAXORDINAL) by (unfold Datetime.MAXORDINAL; lia).
  assert (Hend : date_or (Some "2022-05-10") (Ok 738275) = Ok 738285) by reflexivity.
  assert (Hwin : returns (Datetime.sub_days 738285 8)) by (eexists; reflexivity).
  split; [exact Htoday|]. split; [exact Hend|]. split; [exact Hwin|].
  exact (proj1 (format_dates_default_start 738275 None (Some "2022-05-10") 738285
                  Htoday (or_introl eq_refl) Hend) Hwin).
Defined.

(** X9. The pair of strings [_format_dates] returns is accepted by it again
    and returned unchanged, whatever today's date then is. *)
Theorem format_dates_idempotent (today today' : Z) (start_date end_date : option string)
    (s e : string) :
  1 ≤ today ≤ Datetime.MAXORDINAL →
  _format_dates today start_date end_date = Ok (s, e) →
  _format_dates today' (Some s) (Some e) = Ok (s, e).
Proof.
  intros Htoday Hr.
  destruct (format_dates_Ok_inv _ _ _ _ _ Htoday Hr)
    as (start & end_ & _ & _ & Hle & Hs & He & -> & ->).
  unfold _format_dates.
  rewrite (date_or_supplied _ end_), bind_Ok_l by by apply fromisoformat_isoformat.
  rewrite (date_or_supplied _ start), bind_Ok_l by by apply fromisoformat_isoformat.
  by destruct (Z.ltb_spec end_ start); [lia|].
Qed.

Lemma format_dates_idempotent_witness :
  1 ≤ 738275 ≤ Datetime.MAXORDINAL
  ∧ _format_dates 738275 None None = Ok ("2022-04-22", "2022-04-30")
  ∧ _format_dates 1 (Some "2022-04-22") (Some "2022-04-30")
    = Ok ("2022-04-22", "2022-04-30").
Proof.
  assert (Htoday : 1 ≤ 738275 ≤ Datetime.MAXORDINAL) by (unfold Datetime.MAXORDINAL; lia).
  assert (Hr : _format_dates 738275 None None = Ok ("2022-04-22", "2022-04-30"))
    by reflexivity.
  split; [exact Htoday|]. split; [exact Hr|].
  exact (format_dates_idempotent 738275 1 None None "2022-04-22" "2022-04-30" Htoday Hr).
Defined.

(** X10. [_format_payload] raises exactly the errors of [_format_dates]; a
    payload it returns names at least one user, the ids formatted by
    [_format_user_ids], and its two dates parse with the start not after the
    end. *)
Theorem format_payload_well_formed (user_id : string) (today : Z)
    (start_date end_date : option string) (user_ids : option ids_arg) :
  1 ≤ today ≤ Datetime.MAXORDINAL →
  (∀ e, _format_payload user_id today start_date end_date user_ids = Raise e
        ↔ _format_dates today start_date end_date = Raise e)
  ∧ (∀ p, _format_payload user_id today start_date end_date user_ids = Ok p →
          pulseUserIds p = _format_user_ids user_id user_ids
          ∧ pulseUserIds p ≠ []
          ∧ ∃ start end_,
              Datetime.fromisoformat (startDate p) = Ok start
              ∧ Datetime.fromisoformat (endDate p) = Ok end_
              ∧ start ≤ end_).
Proof.
  intros Htoday. unfold _format_payload.
  destruct (_format_dates today start_date end_date) as [[s e]|err] eqn:Hdates; simpl.
  - split; [by intros err|]. intros p [= <-]. simpl. split; [done|].
    split; [by destruct user_ids as [[u|[|u l]]|]; unfold _format_user_ids; simpl; try done; destruct (String.eqb u "")|].
    destruct (format_dates_Ok_inv _ _ _ _ _ Htoday Hdates)
      as (start & end_ & _ & _ & Hle & Hs & He & -> & ->).
    exists start, end_. by rewrite !fromisoformat_isoformat.
  - split; [intros e0; split; intros [= <-]; reflexivity|discriminate].
Qed.

Lemma format_payload_well_formed_witness :
  1 ≤ 738275 ≤ Datetime.MAXORDINAL
  ∧ ∀ p, _format_payload "r5FiwuBlYZ" 738275 None None None = Ok p →
         pulseUserIds p = ["r5FiwuBlYZ"]
         ∧ pulseUserIds p ≠ []
         ∧ ∃ start end_,
             Datetime.fromisoformat (startDate p) = Ok start
             ∧ Datetime.fromisoformat (endDate p) = Ok end_
             ∧ start ≤ end_.
Proof.
  assert (Htoday : 1 ≤ 738275 ≤ Datetime.MAXORDINAL) by (unfold Datetime.MAXORDINAL; lia).
  split; [exact Htoday|].
  exact (proj2 (format_payload_well_formed "r5FiwuBlYZ" 738275 None None None Htoday)).
Defined.


(** ** The snapshots behind the workload map *)

Lemma workloads_from_Raise (l : list snapshot) (normalized : bool) (acc : gmap Z float)
    (e : exception) :
  workloads_from l normalized acc = Raise e →
  ∃ before s after,
    l = before ++ s :: after
    ∧ (∀ s', s' ∈ before → returns (Datetime.fromisoformat (date s')))
    ∧ Datetime.fromisoformat (date s) = Raise e.
Proof.
  revert acc. induction l as [|s l IH]; intros acc Hr; [discriminate|].
  simpl in Hr. apply bind_Raise in Hr as [Hs|(d & Hs & Hr)].
  - exists [], s, l. split; [done|]. split; [|done].
    intros s' Hs'. by apply elem_of_nil in Hs'.
  - destruct (IH _ Hr) as (before & s0 & after & -> & Hbefore & Hs0).
    exists (s :: before), s0, after. split; [done|]. split; [|done].
    intros s' [->|Hs']%elem_of_cons; [by exists d|by apply Hbefore].
Qed.


Lemma workloads_from_value (l : list snapshot) (normalized : bool)
    (acc W : gmap Z float) (d : Z) (v : float) :
  workloads_from l normalized acc = Ok W →
  W !! d = Some v →
  acc !! d = Some v
  ∨ ∃ s, s ∈ l ∧ Datetime.fromisoformat (date s) = Ok d ∧ daily normalized s = v.
Proof.
  revert acc. induction l as [|s l IH]; intros acc HW Hv; simpl in HW.
  - injection HW as <-. by left.
  - apply bind_Ok in HW as (d' & Hd' & HW).
    destruct (IH _ HW Hv) as [Hacc|(s' & Hs' & Hparse & Hval)].
    + apply lookup_insert_Some in Hacc as [[<- <-]|[_ Hacc]]; [|by left].
      right. exists s. split; [by left|done].
    + right. exists s'. split; [by right|done].
Qed.

Lemma workloads_lookup_consistent (snapshots : list snapshot) (normalized : bool)
    (W : gmap Z float) (d : Z) (v : float) :
  _get_workloads_by_date snapshots normalized = Ok W →
  consistent normalized snapshots →
  W !! d = Some v ↔
    ∃ s, s ∈ snapshots ∧ Datetime.fromisoformat (date s) = Ok d
         ∧ daily normalized s = v.
Proof.
  intros HW Hcons. split.
  - intros Hv. destruct (workloads_from_value _ _ _ _ _ _ HW Hv) as [Hempty|?]; [|done].
    by rewrite lookup_empty in Hempty.
  - intros (s & Hs & Hparse & <-).
    assert (d ∈ keys W) as [v Hv]%elem_of_keys.
    { apply (workloads_keys snapshots normalized); [done|]. by exists s. }
    destruct (workloads_from_value _ _ _ _ _ _ HW Hv)
      as [Hempty|(s' & Hs' & Hparse' & <-)].
    + by rewrite lookup_empty in Hempty.
    + rewrite Hv. f_equal. by eapply Hcons.
Qed.

(** X11. When records of the same date carry the same daily workload, the
    order of the snapshots does not matter: a rearranged list gives the same
    workload map and the same acute workload, chronic workload and ratio. *)
Theorem workloads_order_independent (snapshots snapshots' : list snapshot)
    (normalized : bool) (W : gmap Z float) :
  _get_workloads_by_date snapshots normalized = Ok W →
  consistent normalized snapshots →
  snapshots ≡ₚ snapshots' →
  _get_workloads_by_date snapshots' normalized = Ok W
  ∧ ∀ end_date,
      compute_acute_workload snapshots' end_date normalized
      = compute_acute_workload snapshots end_date normalized
      ∧ compute_chronic_workload snapshots' end_date normalized
        = compute_chronic_workload snapshots end_date normalized
      ∧ compute_acr snapshots' end_date normalized
        = compute_acr snapshots end_date normalized.
Proof.
  intros HW Hcons Hperm.
  assert (HW' : _get_workloads_by_date snapshots' normalized = Ok W).
  { destruct (workloads_from_total snapshots' normalized ∅) as [W' HW'].
    { intros s Hs. rewrite <- Hperm in Hs.
      by apply (workloads_from_valid snapshots normalized ∅ W). }
    unfold _get_workloads_by_date at 1. rewrite HW'. f_equal.
    assert (Hcons' : consistent normalized snapshots').
    { intros s1 s2 d Hs1 Hs2. rewrite <- Hperm in Hs1, Hs2. by apply Hcons. }
    apply map_eq. intros d. apply option_eq. intros v.
    rewrite (workloads_lookup_consistent snapshots' normalized W' d v HW' Hcons').
    rewrite (workloads_lookup_consistent snapshots normalized W d v HW Hcons).
    by setoid_rewrite Hperm. }
  split; [done|]. intros end_date.
  unfold compute_acr, compute_chronic_workload, compute_acute_workload.
  by rewrite HW, HW'.
Qed.

Lemma consistent_april : consistent true april.
Proof.
  intros s1 s2 d Hs1 Hs2.
  repeat (apply elem_of_cons in Hs1 as [->|Hs1]); try (by apply elem_of_nil in Hs1);
    repeat (apply elem_of_cons in Hs2 as [->|Hs2]); try (by apply elem_of_nil in Hs2);
    intros E1 E2; vm_compute in E1, E2; congruence.
Defined.

Lemma workloads_order_independent_witness :
  _get_workloads_by_date april true = Ok april_map
  ∧ consistent true april
  ∧ april ≡ₚ reverse april
  ∧ _get_workloads_by_date (reverse april) true = Ok april_map
  ∧ compute_acute_workload (reverse april) None true
    = compute_acute_workload april None true.
Proof.
  assert (HW : _get_workloads_by_date april true = Ok april_map)
    by (vm_compute; reflexivity).
  assert (Hperm : april ≡ₚ reverse april) by (symmetry; apply reverse_Permutation).
  destruct (workloads_order_independent april (reverse april) true april_map
              HW consistent_april Hperm) as [HW' Hsame].
  split; [exact HW|]. split; [exact consistent_april|]. split; [exact Hperm|].
  split; [exact HW'|]. exact (proj1 (Hsame None)).
Defined.






(** ** The exceptions of the workload functions *)

Lemma end_of_Raise (end_date : option string) (W : gmap Z float) (e : exception) :
  end_of end_date W = Raise e → class_of e = ValueError.
Proof.
  unfold end_of.
  destruct end_date as [s|]; [destruct (String.eqb s "")|].
  - by intros [_ ->]%py_max_Raise.
  - by intros ->%fromisoformat_Raise.
  - by intros [_ ->]%py_max_Raise.
Qed.

Lemma window_inputs_or_ValueError snapshots end_date normalized :
  (∃ W start end_, window_inputs snapshots end_date normalized W start end_)
  ∨ ∃ e, class_of e = ValueError
         ∧ compute_acute_workload snapshots end_date normalized = Raise e
         ∧ compute_chronic_workload snapshots end_date normalized = Raise e.
Proof.
  unfold compute_chronic_workload, compute_acute_workload.
  destruct (_get_workloads_by_date snapshots normalized) as [W|e] eqn:HW.
  - simpl. destruct (py_min (keys W)) as [start|e] eqn:Hstart.
    + simpl. destruct (end_of end_date W) as [end_|e] eqn:Hend.
      * left. exists W, start, end_. split; [done|].
        split; [by apply py_min_Ok|by apply end_of_Ok].
      * right. exists e. split; [by eapply end_of_Raise|done].
    + right. exists e. apply py_min_Raise in Hstart as [_ ->]. done.
  - right. exists e. split; [|done].
    apply workloads_from_Raise in HW as (_ & s & _ & _ & _ & ->%fromisoformat_Raise).
    done.
Qed.

(** X14. Whatever the input, an exception raised by one of the three
    computations is a [ValueError] or an [OverflowError]: never a
    [ZeroDivisionError], never an [IndexError] on the weight table. *)
Theorem exceptions_raised snapshots end_date normalized (e : exception) :
  compute_acute_workload snapshots end_date normalized = Raise e
  ∨ compute_chronic_workload snapshots end_date normalized = Raise e
  ∨ compute_acr snapshots end_date normalized = Raise e →
  class_of e = ValueError ∨ class_of e = OverflowError.
Proof.
  destruct (window_inputs_or_ValueError snapshots end_date normalized)
    as [(W & start & end_ & Hin)|(e' & Hclass & Ha & Hc)].
  - destruct (compute_acute_workload_cases _ _ _ _ _ _ Hin)
      as [[_ Ha]|[(_ & _ & Ha)|(_ & _ & Ha)]];
    destruct (compute_chronic_workload_cases _ _ _ _ _ _ Hin)
      as [[_ Hc]|[(_ & _ & Hc)|(_ & _ & Hc)]];
    destruct (compute_acr_cases _ _ _ _ _ _ Hin)
      as [[_ Hr]|[(_ & _ & Hr)|(_ & _ & [r Hr])]];
    rewrite Ha, Hc, Hr; intros [[= <-]|[[= <-]|[= <-]]]; auto.
  - unfold compute_acr. rewrite Ha, Hc. simpl.
    intros [[= <-]|[[= <-]|[= <-]]]; auto.
Qed.

Lemma exceptions_raised_witness :
  compute_chronic_workload [snap "0001-01-20" 10 10] None true = Raise DateOutOfRange
  ∧ (class_of DateOutOfRange = ValueError ∨ class_of DateOutOfRange = OverflowError).
Proof.
  assert (Hc : compute_chronic_workload [snap "0001-01-20" 10 10] None true
               = Raise DateOutOfRange) by (vm_compute; reflexivity).
  split; [exact Hc|].
  exact (exceptions_raised [snap "0001-01-20" 10 10] None true DateOutOfRange
           (or_intror (or_introl Hc))).
Defined.

(** X15. [compute_acr] raises exactly when [compute_chronic_workload] raises,
    and then the same exception: once the chronic workload is returned, the
    acute workload and the division cannot fail. *)
Theorem acr_raises_with_chronic snapshots end_date normalized (e : exception) :
  compute_acr snapshots end_date normalized = Raise e
  ↔ compute_chronic_workload snapshots end_date normalized = Raise e.
Proof.
  unfold compute_acr.
  destruct (compute_chronic_workload snapshots end_date normalized) as [c|e'] eqn:Hc;
    simpl; [|done].
  split; [|discriminate]. intros Hr. exfalso.
  destruct (compute_chronic_workload_inputs _ _ _ _ Hc) as (W & start & end_ & Hin).
  destruct (PrimFloat.eqb c 0) eqn:Hzero; [discriminate|].
  destruct (compute_chronic_workload_cases _ _ _ _ _ _ Hin)
    as [[_ Hc']|[(_ & _ & Hc')|(Hle & Hwin & _)]]; [congruence|congruence|].
  destruct (compute_acute_workload_cases _ _ _ _ _ _ Hin)
    as [[? _]|[(_ & ? & _)|(_ & _ & Ha)]]; [lia|lia|].
  rewrite Ha in Hr. simpl in Hr. unfold truediv in Hr. by rewrite Hzero in Hr.
Qed.


(** ** The reference date and the window *)

(** X16. Passing the most recent snapshot date as [end_date], or the empty
    string, gives the same result as passing no end date, for the three
    computations. *)
Theorem default_end_date (snapshots : list snapshot) (normalized : bool)
    (W : gmap Z float) (s : string) (d : Z) :
  _get_workloads_by_date snapshots normalized = Ok W →
  latest (keys W) d →
  Datetime.fromisoformat s = Ok d →
  ∀ end_date, end_date = Some s ∨ end_date = Some "" →
    compute_acute_workload snapshots end_date normalized
    = compute_acute_workload snapshots None normalized
    ∧ compute_chronic_workload snapshots end_date normalized
      = compute_chronic_workload snapshots None normalized
    ∧ compute_acr snapshots end_date normalized
      = compute_acr snapshots None normalized.
Proof.
  intros HW Hlatest Hs end_date Hend.
  assert (end_of end_date W = end_of None W) as Heq.
  { destruct Hend as [-> | ->]; [|done].
    rewrite (proj2 (end_of_Ok None W d)) by done.
    apply end_of_Ok. by apply reference_date_supplied. }
  unfold compute_acr, compute_chronic_workload, compute_acute_workload.
  rewrite HW, !bind_Ok_l.
  destruct (py_min (keys W)) as [start|e]; [|done].
  by rewrite !bind_Ok_l, Heq.
Qed.

Lemma default_end_date_witness :
  _get_workloads_by_date april true = Ok april_map
  ∧ latest (keys april_map) 738275
  ∧ Datetime.fromisoformat "2022-04-30" = Ok 738275
  ∧ compute_acute_workload april (Some "2022-04-30") true
    = compute_acute_workload april None true
  ∧ compute_acr april (Some "") true = compute_acr april None true.
Proof.
  assert (HW : _get_workloads_by_date april true = Ok april_map)
    by (vm_compute; reflexivity).
  assert (Hlatest : latest (keys april_map) 738275)
    by (apply py_max_Ok; vm_compute; reflexivity).
  assert (Hs : Datetime.fromisoformat "2022-04-30" = Ok 738275) by reflexivity.
  split; [exact HW|]. split; [exact Hlatest|]. split; [exact Hs|]. split.
  - exact (proj1 (default_end_date april true april_map "2022-04-30" 738275
                    HW Hlatest Hs (Some "2022-04-30") (or_introl eq_refl))).
  - exact (proj2 (proj2 (default_end_date april true april_map "2022-04-30" 738275
                           HW Hlatest Hs (Some "") (or_intror eq_refl)))).
Defined.

Lemma chronic_formula_no_data (W : gmap Z float) (start end_ : Z) :
  start + 23 ≤ end_ →
  (∀ offset, 0 ≤ offset ≤ 27 → W !! (end_ - offset) = None) →
  chronic_formula W start end_ = 0%float.
Proof.
  intros Hspan Habsent. unfold chronic_formula, _get_chronic_divisor.
  destruct (Z.leb_spec 23 (end_ - start)); [|lia].
  change (seqZ 0 28) with [0; 1; 2; 3; 4; 5; 6; 7; 8; 9; 10; 11; 12; 13; 14; 15; 16;
                           17; 18; 19; 20; 21; 22; 23; 24; 25; 26; 27].
  simpl foldl. rewrite !Habsent by lia. reflexivity.
Qed.

(** X17. For a non-empty snapshot list and a supplied end date at least 28
    days after every snapshot date, [compute_chronic_workload] and
    [compute_acr] return 0.0. *)
Theorem chronic_after_all_data snapshots (s : string) normalized W end_ :
  _get_workloads_by_date snapshots normalized = Ok W →
  snapshots ≠ [] →
  Datetime.fromisoformat s = Ok end_ →
  (∀ d, d ∈ keys W → d + 28 ≤ end_) →
  compute_chronic_workload snapshots (Some s) normalized = Ok 0%float
  ∧ compute_acr snapshots (Some s) normalized = Ok 0%float.
Proof.
  intros HW Hne Hs Hafter.
  destruct (earliest_exists (keys W)) as [start Hstart]; [by eapply workloads_nonempty|].
  assert (Hin : window_inputs snapshots (Some s) normalized W start end_).
  { split; [done|]. split; [done|]. by apply reference_date_supplied. }
  pose proof (window_inputs_range _ _ _ _ _ _ Hin) as [Hrange _].
  pose proof (Hafter start (proj1 Hstart)) as Hlate.
  assert (Hc : compute_chronic_workload snapshots (Some s) normalized = Ok 0%float).
  { destruct (compute_chronic_workload_cases _ _ _ _ _ _ Hin)
      as [[? _]|[(_ & ? & _)|(_ & _ & ->)]]; [lia|lia|].
    f_equal. apply chronic_formula_no_data; [lia|].
    intros offset Hoff. apply eq_None_not_Some. intros Hkey%elem_of_keys%Hafter. lia. }
  split; [done|]. unfold compute_acr. by rewrite Hc.
Qed.

Lemma chronic_after_all_data_witness :
  _get_workloads_by_date april true = Ok april_map
  ∧ april ≠ []
  ∧ Datetime.fromisoformat "2023-04-30" = Ok 738640
  ∧ (∀ d, d ∈ keys april_map → d + 28 ≤ 738640)
  ∧ compute_chronic_workload april (Some "2023-04-30") true = Ok 0%float
  ∧ compute_acr april (Some "2023-04-30") true = Ok 0%float.
Proof.
  assert (HW : _get_workloads_by_date april true = Ok april_map)
    by (vm_compute; reflexivity).
  assert (Hne : april ≠ []) by discriminate.
  assert (Hs : Datetime.fromisoformat "2023-04-30" = Ok 738640) by reflexivity.
  assert (Hafter : ∀ d, d ∈ keys april_map → d + 28 ≤ 738640).
  { intros d Hd.
    assert (Hmax : latest (keys april_map) 738275)
      by (apply py_max_Ok; vm_compute; reflexivity).
    apply Hmax in Hd. lia. }
  split; [exact HW|]. split; [exact Hne|]. split; [exact Hs|]. split; [exact Hafter|].
  exact (chronic_after_all_data april "2023-04-30" true april_map 738640 HW Hne Hs Hafter).
Defined.

Lemma foldl_ext_in {A B} (f g : A → B → A) (l : list B) (a : A) :
  (∀ a x, x ∈ l → f a x = g a x) → foldl f a l = foldl g a l.
Proof.
  revert a. induction l as [|x l IH]; intros a Hfg; simpl; [done|].
  rewrite Hfg by left. apply IH. intros a' y Hy. apply Hfg. by right.
Qed.

(** X18. The acute workload depends on the snapshots only through the earliest
    date, the reference date and the workloads of the 9 days ending at the
    reference date; the chronic workload and the ratio likewise with 28
    days. *)
Theorem window_locality snapshots snapshots' end_date end_date' normalized normalized'
    W W' start end_ :
  window_inputs snapshots end_date normalized W start end_ →
  window_inputs snapshots' end_date' normalized' W' start end_ →
  ((∀ offset, 0 ≤ offset < ACUTE_LENGTH → get W (end_ - offset) = get W' (end_ - offset)) →
   compute_acute_workload snapshots end_date normalized
   = compute_acute_workload snapshots' end_date' normalized')
  ∧ ((∀ offset, 0 ≤ offset < CHRONIC_LENGTH →
        get W (end_ - offset) = get W' (end_ - offset)) →
     compute_chronic_workload snapshots end_date normalized
     = compute_chronic_workload snapshots' end_date' normalized'
     ∧ compute_acr snapshots end_date normalized
       = compute_acr snapshots' end_date' normalized').
Proof.
  intros Hin Hin'.
  assert (Hacute : (∀ offset, 0 ≤ offset < ACUTE_LENGTH →
                      get W (end_ - offset) = get W' (end_ - offset)) →
                   compute_acute_workload snapshots end_date normalized
                   = compute_acute_workload snapshots' end_date' normalized').
  { intros Hsame.
    destruct (compute_acute_workload_cases _ _ _ _ _ _ Hin)
      as [[? ->]|[(? & ? & ->)|(? & ? & ->)]];
    destruct (compute_acute_workload_cases _ _ _ _ _ _ Hin')
      as [[? ->]|[(? & ? & ->)|(? & ? & ->)]]; try lia; try done.
    f_equal. unfold acute_formula. f_equal. apply foldl_ext_in.
    intros acc offset Hoff%elem_of_seqZ. f_equal. f_equal.
    apply (Hsame offset). unfold ACUTE_LENGTH. lia. }
  split; [done|]. intros Hsame.
  assert (Hchronic : compute_chronic_workload snapshots end_date normalized
                     = compute_chronic_workload snapshots' end_date' normalized').
  { destruct (compute_chronic_workload_cases _ _ _ _ _ _ Hin)
      as [[? ->]|[(? & ? & ->)|(? & ? & ->)]];
    destruct (compute_chronic_workload_cases _ _ _ _ _ _ Hin')
      as [[? ->]|[(? & ? & ->)|(? & ? & ->)]]; try lia; try done.
    f_equal. unfold chronic_formula. f_equal. apply foldl_ext_in.
    intros acc offset Hoff%elem_of_seqZ. f_equal.
    apply (Hsame offset). unfold CHRONIC_LENGTH. lia. }
  split; [done|]. unfold compute_acr. rewrite Hchronic, Hacute; [done|].
  intros offset Hoff. apply Hsame. unfold ACUTE_LENGTH, CHRONIC_LENGTH in *. lia.
Qed.

Lemma window_locality_witness :
  let W : gmap Z float := <[738275 := 21.5%float]> (<[738246 := 5%float]> ∅) in
  let W' : gmap Z float :=
    <[738275 := 21.5%float]> (<[738260 := 3%float]> (<[738246 := 7%float]> ∅)) in
  window_inputs spring None true W 738246 738275
  ∧ window_inputs spring' (Some "2022-04-30") true W' 738246 738275
  ∧ (∀ offset, 0 ≤ offset < ACUTE_LENGTH →
       get W (738275 - offset) = get W' (738275 - offset))
  ∧ compute_acute_workload spring None true
    = compute_acute_workload spring' (Some "2022-04-30") true.
Proof.
  intros W W'.
  assert (Hin : window_inputs spring None true W 738246 738275).
  { split; [vm_compute; reflexivity|].
    split; [apply py_min_Ok|apply py_max_Ok]; vm_compute; reflexivity. }
  assert (Hin' : window_inputs spring' (Some "2022-04-30") true W' 738246 738275).
  { split; [vm_compute; reflexivity|].
    split; [apply py_min_Ok; vm_compute; reflexivity|reflexivity]. }
  assert (Hsame : ∀ offset, 0 ≤ offset < ACUTE_LENGTH →
                    get W (738275 - offset) = get W' (738275 - offset)).
  { unfold ACUTE_LENGTH. intros offset Hoff.
    assert (Hcases : offset = 0 ∨ offset = 1 ∨ offset = 2 ∨ offset = 3 ∨ offset = 4
                     ∨ offset = 5 ∨ offset = 6 ∨ offset = 7 ∨ offset = 8) by lia.
    repeat (destruct Hcases as [->|Hcases]); try subst offset; vm_compute; reflexivity. }
  split; [exact Hin|]. split; [exact Hin'|]. split; [exact Hsame|].
  exact (proj1 (window_locality spring spring' None (Some "2022-04-30") true true
                  W W' 738246 738275 Hin Hin') Hsame).
Defined.

(** X19. The acute divisor is [min(span + 3, 9)] and the chronic divisor
    [min(span + 5, 28)], for every integer span; both grow with the span, and
    for a span [>= 0] the acute divisor is at most the chronic one. *)
Theorem divisors_closed_form (s t : Z) :
  _get_acute_divisor s = Z.min (s + 3) ACUTE_LENGTH
  ∧ _get_chronic_divisor s = Z.min (s + 5) CHRONIC_LENGTH
  ∧ (s ≤ t → _get_acute_divisor s ≤ _get_acute_divisor t
             ∧ _get_chronic_divisor s ≤ _get_chronic_divisor t)
  ∧ (0 ≤ s → _get_acute_divisor s ≤ _get_chronic_divisor s).
Proof.
  unfold _get_acute_divisor, _get_chronic_divisor, ACUTE_LENGTH, CHRONIC_LENGTH.
  destruct (Z.leb_spec 6 s), (Z.leb_spec 23 s), (Z.leb_spec 6 t), (Z.leb_spec 23 t); lia.
Qed.
